(** * pdtb2_functions: adjacency check and connective-initial extraction

    A shallow embedding of [adjacency_check] and [connective_initial] from
    [pdtb2_functions.py], together with the properties stated about them.

    Python integers are unbounded, hence [Z]; Python exceptions are an
    explicit error result; the [keepers] dictionary is an insertion-ordered
    association list with Python's assignment semantics (overwrite in place,
    append when the key is new). *)

From Stdlib Require Import ZArith List String Ascii DecimalString Bool Lia.
From Stdlib Require Import Permutation Sorted.
Import ListNotations.

Local Open Scope Z_scope.

(** ** The fragment of the Python runtime the two functions rely on *)

Module Py.

(** The exceptions the modelled code can raise.  [ValueError] is what
    [min]/[max] raise on an empty sequence (the specification calls it
    InvalidRecordError); [TypeError] is what a compiled pattern's
    [search] raises when it is handed [None]. *)
Inductive exn : Type :=
| ValueError
| TypeError.

Inductive result (A : Type) : Type :=
| Return (a : A)
| Raise (e : exn).

Arguments Return {A} a.
Arguments Raise {A} e.

Definition bind {A B : Type} (m : result A) (k : A -> result B) : result B :=
  match m with
  | Return a => k a
  | Raise e => Raise e
  end.

(** [max(xs)]: raises on the empty list, otherwise scans left to right
    and replaces the current best only by a strictly larger item. *)
Definition py_max (xs : list Z) : result Z :=
  match xs with
  | [] => Raise ValueError
  | x :: rest => Return (fold_left (fun best y => if best <? y then y else best) rest x)
  end.

(** [min(xs)]: the mirror image of [py_max]. *)
Definition py_min (xs : list Z) : result Z :=
  match xs with
  | [] => Raise ValueError
  | x :: rest => Return (fold_left (fun best y => if y <? best then y else best) rest x)
  end.

(** Truth value of an attribute that is either [None] or a [str]:
    [None] and the empty string are falsy. *)
Definition truthy (v : option string) : bool :=
  match v with
  | None => false
  | Some s => negb (String.eqb s EmptyString)
  end.

(** [a == b] on values that are [None] or a [str]. *)
Definition opt_eqb (a b : option string) : bool :=
  match a, b with
  | None, None => true
  | Some x, Some y => String.eqb x y
  | _, _ => false
  end.

(** [x in (a, b, ...)] for strings. *)
Definition str_in (x : string) (xs : list string) : bool :=
  existsb (String.eqb x) xs.

(** A [dict] with string keys, in insertion order. *)
Definition dict (V : Type) : Type := list (string * V).

(** [d[k] = v]: an existing key keeps its position and gets the new
    value, a new key is appended. *)
Fixpoint dict_set {V : Type} (k : string) (v : V) (d : dict V) : dict V :=
  match d with
  | [] => [(k, v)]
  | (k', v') :: rest =>
      if String.eqb k' k then (k', v) :: rest
      else (k', v') :: dict_set k v rest
  end.

Fixpoint dict_get {V : Type} (k : string) (d : dict V) : option V :=
  match d with
  | [] => None
  | (k', v') :: rest => if String.eqb k' k then Some v' else dict_get k rest
  end.

Definition dict_keys {V : Type} (d : dict V) : list string := map fst d.

Definition dict_values {V : Type} (d : dict V) : list V := map snd d.

(** ["%s/%s" % (a, b)] on two strings. *)
Definition format_slash (a b : string) : string :=
  String.append a (String.append "/" b).

(** A compiled regular expression is represented by the set of strings
    in which it finds a match; [pattern.search(s)] is truthy exactly on
    those, and raises [TypeError] when [s] is [None]. *)
Definition re_search (matches : string -> bool) (s : option string) : result bool :=
  match s with
  | None => Raise TypeError
  | Some text => Return (matches text)
  end.

End Py.

Import Py.

Notation "x <- m ;; k" := (bind m (fun x => k))
  (at level 61, m at next level, right associativity).

(** ** The corpus record *)

(** Modelled from the spec: a span is a pair of integer offsets
    [(start, end)]; the class [Datum] itself lives in [pdtb2.py]. *)
Definition Span : Type := (Z * Z)%type.

Definition SpanList : Type := list Span.

(** The attributes of [Datum] that the two functions read.  Text
    attributes are [None] or a string. *)
Record Datum : Type := mkDatum {
  Relation : string;
  Section_ : string;
  FileNumber : string;
  Arg1_SpanList : SpanList;
  Arg2_SpanList : SpanList;
  Connective_SpanList : SpanList;
  Arg1_RawText : option string;
  Arg2_RawText : option string;
  Sup1_RawText : option string;
  Sup2_RawText : option string;
  ConnHead : option string;
  Connective_RawText : option string;
  Conn2 : option string;
  ConnHeadSemClass1 : option string
}.

(** [[x for span in spans for x in span]] *)
Definition flatten (spans : SpanList) : list Z :=
  flat_map (fun span : Span => [fst span; snd span]) spans.

(** One row of [keepers]: a Python list of six values. *)
Definition Row : Type := list (option string).

(** What the loop of [connective_initial] changes: the dictionary and the
    lines printed so far. *)
Record LoopState : Type := mkState {
  keepers : dict Row;
  stdout : list string
}.

Definition csv_header : Row :=
  [Some "ItemId"; Some "Relation"; Some "ConnHeadSemClass1";
   Some "Arg1"; Some "Connective"; Some "Arg2"]%string.

(** The state in which the loop starts: [keepers = {}], nothing printed. *)
Definition initial_state : LoopState := {| keepers := []; stdout := [] |}.

(** ** The two functions *)

Section Functions.

(** Methods of [Datum] defined in [pdtb2.py]. *)
Variable arg1_precedes_arg2 : Datum -> bool.
Variable conn_str : Datum -> bool -> option string.

(** [sem_re.search], truth value of its result; [sem_re] is supplied by
    the caller. *)
Variable sem_re_search : option string -> result bool.

Definition adjacency_check (datum : Datum) : result bool :=
  if negb (arg1_precedes_arg2 datum) then Return false
  else
    arg1_finish <- py_max (flatten (Arg1_SpanList datum)) ;;
    arg2_start <- py_min (flatten (Arg2_SpanList datum)) ;;
    if String.eqb (Relation datum) "Implicit" then
      if arg2_start - arg1_finish <=? 3 then Return true
      else Return false
    else
      let conn_indices := flatten (Connective_SpanList datum) in
      conn_start <- py_min conn_indices ;;
      conn_finish <- py_max conn_indices ;;
      if (conn_start - arg1_finish <=? 3) && (arg2_start - conn_finish <=? 3)
      then Return true
      else Return false.

Definition itemId_of (datum : Datum) : string :=
  format_slash (Section_ datum) (FileNumber datum).

Definition row_of (datum : Datum) : Row :=
  [Some (itemId_of datum);
   Some (Relation datum);
   ConnHeadSemClass1 datum;
   Arg1_RawText datum;
   conn_str datum false;
   Arg2_RawText datum].

(** The body of the [for] loop of [connective_initial]. *)
Definition connective_initial_body (st : LoopState) (datum : Datum)
  : result LoopState :=
  let rel := Relation datum in
  if str_in rel ["Implicit"; "Explicit"]%string
     && negb (truthy (Sup1_RawText datum))
     && negb (truthy (Sup2_RawText datum))
  then
    found <- sem_re_search (ConnHeadSemClass1 datum) ;;
    if found then
      adjacent <- adjacency_check datum ;;
      if adjacent then
        if (String.eqb rel "Explicit"
            && opt_eqb (ConnHead datum) (Connective_RawText datum))
           || (String.eqb rel "Implicit" && negb (truthy (Conn2 datum)))
        then
          let itemId := itemId_of datum in
          Return {| keepers := dict_set itemId (row_of datum) (keepers st);
                    stdout := stdout st ++ [itemId] |}
        else Return st
      else Return st
    else Return st
  else Return st.

(** The [for] loop: an exception in any iteration leaves the loop. *)
Fixpoint connective_initial_loop (st : LoopState) (data : list Datum)
  : result LoopState :=
  match data with
  | [] => Return st
  | datum :: rest =>
      st' <- connective_initial_body st datum ;;
      connective_initial_loop st' rest
  end.

(** [connective_initial] on the records the corpus reader yields: the
    rows handed to the CSV writer and the lines printed. *)
Definition connective_initial (data : list Datum)
  : result (list Row * list string) :=
  st <- connective_initial_loop initial_state data ;;
  Return (csv_header :: dict_values (keepers st),
          stdout st ++ ["CSV created."%string]).

(** The nest of conditions that guards the assignment to [keepers],
    read as one predicate (the specification's isSimpleExtractable). *)
Definition isSimpleExtractable (datum : Datum) : result bool :=
  let rel := Relation datum in
  if str_in rel ["Implicit"; "Explicit"]%string
     && negb (truthy (Sup1_RawText datum))
     && negb (truthy (Sup2_RawText datum))
  then
    found <- sem_re_search (ConnHeadSemClass1 datum) ;;
    if found then
      adjacent <- adjacency_check datum ;;
      if adjacent then
        Return ((String.eqb rel "Explicit"
                 && opt_eqb (ConnHead datum) (Connective_RawText datum))
                || (String.eqb rel "Implicit" && negb (truthy (Conn2 datum))))
      else Return false
    else Return false
  else Return false.

(** What a qualifying record does to the loop state. *)
Definition keep (st : LoopState) (datum : Datum) : LoopState :=
  {| keepers := dict_set (itemId_of datum) (row_of datum) (keepers st);
     stdout := stdout st ++ [itemId_of datum] |}.

End Functions.

(** Modelled from the spec: the method [arg1_precedes_arg2] of [Datum] is
    defined in [pdtb2.py]; the specification describes it as "whether, by
    document order, Arg1 starts before Arg2".  The properties below hold for
    every implementation of the method; this one serves as a concrete
    instance. *)
Definition arg1_starts_first (d : Datum) : bool :=
  match py_min (flatten (Arg1_SpanList d)), py_min (flatten (Arg2_SpanList d)) with
  | Return a, Return b => a <? b
  | _, _ => false
  end.

(** A concrete instance of [conn_str]: the raw text of the connective. *)
Definition conn_raw (d : Datum) (distinguish_implicit : bool) : option string :=
  Connective_RawText d.

(** ** Extrema, as the specification speaks of them *)

Definition is_max (m : Z) (xs : list Z) : Prop :=
  In m xs /\ forall x, In x xs -> x <= m.

Definition is_min (m : Z) (xs : list Z) : Prop :=
  In m xs /\ forall x, In x xs -> m <= x.

(** The value of [adjacency_check] once the precedence test has passed:
    a function of the four results of [min]/[max] and of the test on
    [Relation]. *)
Definition adjacency_of (implicit : bool) (a1 a2 cs cf : result Z) : result bool :=
  arg1_finish <- a1 ;;
  arg2_start <- a2 ;;
  if implicit then Return (arg2_start - arg1_finish <=? 3)
  else
    conn_start <- cs ;;
    conn_finish <- cf ;;
    Return ((conn_start - arg1_finish <=? 3) && (arg2_start - conn_finish <=? 3)).

(** The entries of a dictionary stored under key [k]. *)
Definition entries_for {V : Type} (k : string) (d : dict V) : list (string * V) :=
  filter (fun kv => String.eqb (fst kv) k) d.

(** ** Sample patterns and records *)

(** A concrete pattern: [re.compile(pat)] for a [pat] without
    metacharacters finds a match exactly in the strings that contain
    [pat]. *)
Fixpoint contains (pat text : string) : bool :=
  String.prefix pat text ||
  match text with
  | EmptyString => false
  | String _ rest => contains pat rest
  end.

(** A pattern object whose [search] always raises. *)
Definition raising_search (e : exn) (s : option string) : result bool := Raise e.

(** [re.compile(r'Contingency').search] *)
Definition contingency : option string -> result bool :=
  re_search (contains "Contingency").

(** Sample records: everything but the relation and the three span lists
    is fixed. *)
Definition sample (rel : string) (arg1 arg2 conn : SpanList) : Datum :=
  {| Relation := rel;
     Section_ := "00";
     FileNumber := "03";
     Arg1_SpanList := arg1;
     Arg2_SpanList := arg2;
     Connective_SpanList := conn;
     Arg1_RawText := Some "It rained"%string;
     Arg2_RawText := Some "the match was off"%string;
     Sup1_RawText := None;
     Sup2_RawText := None;
     ConnHead := Some "because"%string;
     Connective_RawText := Some "because"%string;
     Conn2 := None;
     ConnHeadSemClass1 := Some "Contingency.Cause.Reason"%string |}.

(** An Explicit record that passes every other test but has no
    [ConnHeadSemClass1]. *)
Definition no_semclass : Datum :=
  {| Relation := "Explicit";
     Section_ := "00";
     FileNumber := "03";
     Arg1_SpanList := [(0, 10)];
     Arg2_SpanList := [(16, 30)];
     Connective_SpanList := [(11, 15)];
     Arg1_RawText := Some "It rained"%string;
     Arg2_RawText := Some "the match was off"%string;
     Sup1_RawText := None;
     Sup2_RawText := None;
     ConnHead := Some "because"%string;
     Connective_RawText := Some "because"%string;
     Conn2 := None;
     ConnHeadSemClass1 := None |}.

(** A record of the given relation and file, with or without supplementary
    text on Arg1, otherwise like [sample]. *)
Definition record (rel file : string) (sup1 semclass arg1 : option string) : Datum :=
  {| Relation := rel;
     Section_ := "00";
     FileNumber := file;
     Arg1_SpanList := [(0, 10)];
     Arg2_SpanList := [(16, 30)];
     Connective_SpanList := [(11, 15)];
     Arg1_RawText := arg1;
     Arg2_RawText := Some "the match was off"%string;
     Sup1_RawText := sup1;
     Sup2_RawText := None;
     ConnHead := Some "because"%string;
     Connective_RawText := Some "because"%string;
     Conn2 := None;
     ConnHeadSemClass1 := semclass |}.

(** Sample records: one with supplementary text, an EntRel record without
    semantic class, and qualifying records of files 03 and 07. *)
Definition with_sup1 : Datum :=
  record "Explicit" "03" (Some "he said"%string)
    (Some "Contingency.Cause"%string) (Some "It rained"%string).

Definition entrel : Datum :=
  record "EntRel" "04" None None (Some "It rained"%string).

Definition first_of_03 : Datum :=
  record "Explicit" "03" None (Some "Contingency.Cause"%string)
    (Some "It rained"%string).

Definition second_of_03 : Datum :=
  record "Explicit" "03" None (Some "Contingency.Condition"%string)
    (Some "If it rains"%string).

Definition only_of_07 : Datum :=
  record "Explicit" "07" None (Some "Contingency.Cause"%string)
    (Some "Prices fell"%string).

(** A small corpus: two qualifying records of file 03, an EntRel record
    and a qualifying record of file 07 in between. *)
Definition sample_corpus : list Datum :=
  [first_of_03; entrel; only_of_07; second_of_03].

(** ** The counting and reporting functions *)

(** [str(n)] for an [int], as [format] and [print] write it. *)
Definition str_of_int (n : Z) : string := NilZero.string_of_int (Z.to_int n).

(** The line feed. *)
Definition newline : string := String (ascii_of_nat 10) EmptyString.

(** [d[k] += 1] on a [defaultdict(int)]: a missing key starts from
    [int()], which is 0. *)
Definition dict_incr (k : string) (d : dict Z) : dict Z :=
  let old := match dict_get k d with Some n => n | None => 0 end in
  dict_set k (old + 1) d.

(** [sorted] is stable and compares with [<] only; its result is that of
    a stable insertion sort: each item goes in front of the first item
    it is smaller than. *)
Fixpoint insert_sorted {A : Type} (lt : A -> A -> bool) (x : A) (l : list A)
  : list A :=
  match l with
  | [] => [x]
  | y :: rest => if lt x y then x :: y :: rest else y :: insert_sorted lt x rest
  end.

Definition py_sorted {A : Type} (lt : A -> A -> bool) (l : list A) : list A :=
  fold_left (fun acc x => insert_sorted lt x acc) l [].

(** [<] on [(str, int)] tuples: the first components decide unless they
    are equal. *)
Definition item_lt (x y : string * Z) : bool :=
  if String.eqb (fst x) (fst y) then snd x <? snd y
  else String.ltb (fst x) (fst y).

(** The order of [sorted(..., key=itemgetter(1), reverse=True)]: larger
    counts first, items with equal counts in their original order. *)
Definition count_desc (x y : string * Z) : bool := snd y <? snd x.

(** A value handed to [csv.writer.writerow]. *)
Inductive cell : Type :=
| Str (s : string)
| Int (n : Z).

(** [s.replace(old, new)] for one-character [old] and [new]. *)
Fixpoint replace_char (old new : ascii) (s : string) : string :=
  match s with
  | EmptyString => EmptyString
  | String c rest =>
      String (if Ascii.eqb c old then new else c) (replace_char old new rest)
  end.

(** The dictionary [relation_count] builds. *)
Definition relation_count_dict (data : list Datum) : dict Z :=
  fold_left (fun d datum => dict_incr (Relation datum) d) data [].

(** [relation_count]: the lines it prints. *)
Definition relation_count (data : list Datum) : list string :=
  let d := relation_count_dict data in
  map (fun kv => String.append (fst kv)
                   (String.append " " (str_of_int (snd kv)))) d.

Definition count_semantic_classes (data : list Datum) : dict Z :=
  fold_left
    (fun d datum =>
       let sc := ConnHeadSemClass1 datum in
       match sc with
       | Some s => if truthy sc then dict_incr s d else d
       | None => d
       end)
    data [].

(** [count_semantic_classes_to_csv]: the rows written. *)
Definition count_semantic_classes_to_csv (data : list Datum) : list (list cell) :=
  let d := count_semantic_classes data in
  [Str "ConnHeadSemClass1"; Str "Count"]
  :: map (fun kv => [Str (fst kv); Int (snd kv)]) (py_sorted item_lt d).

(** The line [connective_distribution2wordle] writes above and below a
    relation name: seventy equals signs. *)
Definition wordle_rule : string :=
  String.append
    "======================================================================"
    newline.

Definition wordle_entry (kv : string * Z) : string :=
  String.append (replace_char " " "_" (fst kv))
    (String.append ":" (String.append (str_of_int (snd kv)) newline)).

Definition connective_distribution2wordle (d : dict (dict Z)) : string :=
  fold_left
    (fun s item =>
       let rel := fst item in
       let counts := snd item in
       let s := String.append s wordle_rule in
       let s := String.append s (String.append rel newline) in
       let s := String.append s wordle_rule in
       let sorted_counts := py_sorted count_desc counts in
       fold_left (fun s kv => String.append s (wordle_entry kv)) sorted_counts s)
    d EmptyString.

Section Counting.

(** Attributes and methods of [Datum] defined in [pdtb2.py], and
    [str.lower]. *)
Variable Attribution_Source : Datum -> option string.
Variable conn_str : Datum -> bool -> option string.
Variable lower : string -> string.

Definition attribution_counts (data : list Datum) : dict Z :=
  fold_left
    (fun d datum =>
       let src := Attribution_Source datum in
       match src with
       | Some s => if truthy src then dict_incr s d else d
       | None => d
       end)
    data [].

Definition connective_distribution (data : list Datum) : dict (dict Z) :=
  fold_left
    (fun d datum =>
       let cs := conn_str datum false in
       match cs with
       | Some s =>
           if truthy cs then
             let inner :=
               match dict_get (Relation datum) d with
               | Some counts => counts
               | None => []
               end in
             dict_set (Relation datum) (dict_incr (lower s) inner) d
           else d
       | None => d
       end)
    data [].

End Counting.

(** ** Notions used to state the properties *)

(** The items of a list in the order of their first occurrence. *)
Fixpoint dedup (l : list string) : list string :=
  match l with
  | [] => []
  | x :: rest => x :: filter (fun y => negb (String.eqb y x)) (dedup rest)
  end.

(** How often [k] occurs in [l]. *)
Definition occurrences (k : string) (l : list string) : Z :=
  Z.of_nat (List.length (filter (String.eqb k) l)).

(** Counting the strings of a list one by one, as the loops over the
    corpus do. *)
Definition tally (keys : list string) : dict Z :=
  fold_left (fun d k => dict_incr k d) keys [].

(** The strings of a list written one after the other. *)
Definition str_join (l : list string) : string :=
  fold_right String.append EmptyString l.

(** What [connective_distribution2wordle] writes for one relation: the
    name between two rules, then the entries, largest count first. *)
Definition wordle_block (item : string * dict Z) : string :=
  String.append wordle_rule
    (String.append (String.append (fst item) newline)
       (String.append wordle_rule
          (str_join (map wordle_entry (py_sorted count_desc (snd item)))))).

(** The count stored for connective [c] under relation [rel]. *)
Definition nested_count (rel c : string) (d : dict (dict Z)) : Z :=
  match dict_get rel d with
  | Some counts => match dict_get c counts with Some n => n | None => 0 end
  | None => 0
  end.

(** The stored count, 0 for a missing key. *)
Definition count_of (k : string) (d : dict Z) : Z :=
  match dict_get k d with
  | Some n => n
  | None => 0
  end.

(** The strings that are counted: those present and non-empty. *)
Definition truthy_values (attr : Datum -> option string) (data : list Datum)
  : list string :=
  flat_map (fun datum => match attr datum with
                         | Some s => if truthy (Some s) then [s] else []
                         | None => []
                         end) data.

(** The records [connective_initial] stores, in corpus order. *)
Definition qualifying (arg1_precedes_arg2 : Datum -> bool)
    (sem_re_search : option string -> result bool) (data : list Datum)
  : list Datum :=
  filter (fun d => match isSimpleExtractable arg1_precedes_arg2 sem_re_search d with
                   | Return true => true
                   | _ => false
                   end) data.

(** A record with every offset moved by [k]. *)
Definition shift_spans (k : Z) (spans : SpanList) : SpanList :=
  map (fun span : Span => (fst span + k, snd span + k)) spans.

Definition shift (k : Z) (d : Datum) : Datum :=
  {| Relation := Relation d;
     Section_ := Section_ d;
     FileNumber := FileNumber d;
     Arg1_SpanList := shift_spans k (Arg1_SpanList d);
     Arg2_SpanList := shift_spans k (Arg2_SpanList d);
     Connective_SpanList := shift_spans k (Connective_SpanList d);
     Arg1_RawText := Arg1_RawText d;
     Arg2_RawText := Arg2_RawText d;
     Sup1_RawText := Sup1_RawText d;
     Sup2_RawText := Sup2_RawText d;
     ConnHead := ConnHead d;
     Connective_RawText := Connective_RawText d;
     Conn2 := Conn2 d;
     ConnHeadSemClass1 := ConnHeadSemClass1 d |}.

(** ** Facts about [min] and [max] *)

Lemma fold_max_spec (rest : list Z) :
  forall x,
    let m := fold_left (fun best y => if best <? y then y else best) rest x in
    is_max m (x :: rest).
Proof.
  induction rest as [|y rest IH]; intros x; cbn.
  - split; [now left | intros z [<- | []]; lia].
  - destruct (IH (if x <? y then y else x)) as [Hin Hub].
    split.
    + destruct Hin as [Heq | Hin]; [| now right; right].
      rewrite <- Heq. destruct (x <? y); [right; now left | now left].
    + intros z [<- | [<- | Hz]].
      * etransitivity; [| apply Hub; now left].
        destruct (Z.ltb_spec x y); lia.
      * etransitivity; [| apply Hub; now left].
        destruct (Z.ltb_spec x y); lia.
      * apply Hub. now right.
Qed.

Lemma fold_min_spec (rest : list Z) :
  forall x,
    let m := fold_left (fun best y => if y <? best then y else best) rest x in
    is_min m (x :: rest).
Proof.
  induction rest as [|y rest IH]; intros x; cbn.
  - split; [now left | intros z [<- | []]; lia].
  - destruct (IH (if y <? x then y else x)) as [Hin Hlb].
    split.
    + destruct Hin as [Heq | Hin]; [| now right; right].
      rewrite <- Heq. destruct (y <? x); [right; now left | now left].
    + intros z [<- | [<- | Hz]].
      * etransitivity; [apply Hlb; now left |].
        destruct (Z.ltb_spec y x); lia.
      * etransitivity; [apply Hlb; now left |].
        destruct (Z.ltb_spec y x); lia.
      * apply Hlb. now right.
Qed.

Lemma is_max_unique (xs : list Z) (m m' : Z) :
  is_max m xs -> is_max m' xs -> m = m'.
Proof.
  intros [Hin Hub] [Hin' Hub']. apply Hub in Hin'. apply Hub' in Hin. lia.
Qed.

Lemma is_min_unique (xs : list Z) (m m' : Z) :
  is_min m xs -> is_min m' xs -> m = m'.
Proof.
  intros [Hin Hlb] [Hin' Hlb']. apply Hlb in Hin'. apply Hlb' in Hin. lia.
Qed.

Lemma py_max_Return (xs : list Z) (m : Z) :
  py_max xs = Return m <-> is_max m xs.
Proof.
  destruct xs as [|x rest]; cbn.
  - split; [discriminate | intros [[] _]].
  - pose proof (fold_max_spec rest x) as Hspec. cbn in Hspec.
    split.
    + intros [= <-]. exact Hspec.
    + intros Hm. f_equal. eapply is_max_unique; eassumption.
Qed.

Lemma py_min_Return (xs : list Z) (m : Z) :
  py_min xs = Return m <-> is_min m xs.
Proof.
  destruct xs as [|x rest]; cbn.
  - split; [discriminate | intros [[] _]].
  - pose proof (fold_min_spec rest x) as Hspec. cbn in Hspec.
    split.
    + intros [= <-]. exact Hspec.
    + intros Hm. f_equal. eapply is_min_unique; eassumption.
Qed.

Lemma py_max_Raise (xs : list Z) (e : exn) :
  py_max xs = Raise e <-> xs = [] /\ e = ValueError.
Proof.
  destruct xs; cbn; split.
  - now intros [= <-].
  - now intros [_ ->].
  - discriminate.
  - now intros [? _].
Qed.

Lemma py_min_Raise (xs : list Z) (e : exn) :
  py_min xs = Raise e <-> xs = [] /\ e = ValueError.
Proof.
  destruct xs; cbn; split.
  - now intros [= <-].
  - now intros [_ ->].
  - discriminate.
  - now intros [? _].
Qed.

Lemma flatten_nil_iff (spans : SpanList) : flatten spans = [] <-> spans = [].
Proof.
  destruct spans as [|[a b] rest]; cbn; split; congruence.
Qed.

Lemma py_max_total (spans : SpanList) :
  spans <> [] -> exists m, py_max (flatten spans) = Return m.
Proof.
  intros Hne. destruct (py_max (flatten spans)) as [m|e] eqn:E; [now exists m |].
  apply py_max_Raise in E as [E _]. now apply flatten_nil_iff in E.
Qed.

Lemma py_min_total (spans : SpanList) :
  spans <> [] -> exists m, py_min (flatten spans) = Return m.
Proof.
  intros Hne. destruct (py_min (flatten spans)) as [m|e] eqn:E; [now exists m |].
  apply py_min_Raise in E as [E _]. now apply flatten_nil_iff in E.
Qed.

Lemma if_Return_bool (b : bool) :
  (if b then Return true else Return false) = Return b.
Proof. now destruct b. Qed.

(** ** [adjacency_check] *)

Section Adjacency.

Variable arg1_precedes_arg2 : Datum -> bool.

Lemma adjacency_check_unfold (d : Datum) :
  adjacency_check arg1_precedes_arg2 d =
    if arg1_precedes_arg2 d then
      adjacency_of (String.eqb (Relation d) "Implicit")
        (py_max (flatten (Arg1_SpanList d)))
        (py_min (flatten (Arg2_SpanList d)))
        (py_min (flatten (Connective_SpanList d)))
        (py_max (flatten (Connective_SpanList d)))
    else Return false.
Proof.
  unfold adjacency_check, adjacency_of.
  destruct (arg1_precedes_arg2 d); cbn; [| reflexivity].
  destruct (py_max (flatten (Arg1_SpanList d))); cbn; [| reflexivity].
  destruct (py_min (flatten (Arg2_SpanList d))); cbn; [| reflexivity].
  destruct (String.eqb (Relation d) "Implicit"); [apply if_Return_bool |].
  destruct (py_min (flatten (Connective_SpanList d))); cbn; [| reflexivity].
  destruct (py_max (flatten (Connective_SpanList d))); cbn; [| reflexivity].
  apply if_Return_bool.
Qed.

Lemma adjacency_check_implicit_value (d : Datum) (a1 a2 : Z) :
  arg1_precedes_arg2 d = true ->
  Relation d = "Implicit"%string ->
  is_max a1 (flatten (Arg1_SpanList d)) ->
  is_min a2 (flatten (Arg2_SpanList d)) ->
  adjacency_check arg1_precedes_arg2 d = Return (a2 - a1 <=? 3).
Proof.
  intros Hp Hrel H1 H2. rewrite adjacency_check_unfold, Hp, Hrel.
  apply py_max_Return in H1. apply py_min_Return in H2.
  now rewrite H1, H2.
Qed.

Lemma adjacency_check_explicit_value (d : Datum) (a1 a2 cs cf : Z) :
  arg1_precedes_arg2 d = true ->
  Relation d <> "Implicit"%string ->
  is_max a1 (flatten (Arg1_SpanList d)) ->
  is_min a2 (flatten (Arg2_SpanList d)) ->
  is_min cs (flatten (Connective_SpanList d)) ->
  is_max cf (flatten (Connective_SpanList d)) ->
  adjacency_check arg1_precedes_arg2 d = Return ((cs - a1 <=? 3) && (a2 - cf <=? 3)).
Proof.
  intros Hp Hrel H1 H2 H3 H4. rewrite adjacency_check_unfold, Hp.
  apply String.eqb_neq in Hrel. rewrite Hrel.
  apply py_max_Return in H1, H4. apply py_min_Return in H2, H3.
  now rewrite H1, H2, H3, H4.
Qed.

End Adjacency.

Lemma py_max_perm (xs ys : list Z) :
  Permutation xs ys -> py_max xs = py_max ys.
Proof.
  intros HP. destruct (py_max xs) as [m|e] eqn:E.
  - symmetry. apply py_max_Return. apply py_max_Return in E as [Hin Hub].
    split.
    + eapply Permutation_in; eassumption.
    + intros x Hx. apply Hub. eapply Permutation_in; [symmetry|]; eassumption.
  - apply py_max_Raise in E as [-> ->]. apply Permutation_nil in HP. now subst.
Qed.

Lemma py_min_perm (xs ys : list Z) :
  Permutation xs ys -> py_min xs = py_min ys.
Proof.
  intros HP. destruct (py_min xs) as [m|e] eqn:E.
  - symmetry. apply py_min_Return. apply py_min_Return in E as [Hin Hlb].
    split.
    + eapply Permutation_in; eassumption.
    + intros x Hx. apply Hlb. eapply Permutation_in; [symmetry|]; eassumption.
  - apply py_min_Raise in E as [-> ->]. apply Permutation_nil in HP. now subst.
Qed.

Lemma flatten_perm (l l' : SpanList) :
  Permutation l l' -> Permutation (flatten l) (flatten l').
Proof. intros HP. unfold flatten. now rewrite HP. Qed.

(** C3: when [arg1_precedes_arg2()] is false, [adjacency_check] returns
    [False] whatever the three span lists contain; no [min]/[max] is taken
    and nothing is raised. *)
Theorem adjacency_check_not_preceding
    (arg1_precedes_arg2 : Datum -> bool) (d : Datum) :
  arg1_precedes_arg2 d = false ->
  adjacency_check arg1_precedes_arg2 d = Return false.
Proof.
  intros Hp. unfold adjacency_check. now rewrite Hp.
Qed.

Lemma adjacency_check_not_preceding_witness :
  arg1_starts_first (sample "Explicit" [] [] []) = false /\
  adjacency_check arg1_starts_first (sample "Explicit" [] [] []) = Return false.
Proof.
  split; [reflexivity |].
  apply (adjacency_check_not_preceding arg1_starts_first
           (sample "Explicit" [] [] [])).
  reflexivity.
Defined.

(** C4: when [arg1_precedes_arg2()] is true and a span list that has to be
    aggregated is empty ([Arg1_SpanList] or [Arg2_SpanList] for any
    relation, [Connective_SpanList] when the relation is not Implicit),
    [adjacency_check] raises the error of [min]/[max] on an empty sequence
    (Python's [ValueError], the specification's InvalidRecordError); it
    neither returns a boolean nor falls back on zero. *)
Theorem adjacency_check_empty_raises
    (arg1_precedes_arg2 : Datum -> bool) (d : Datum) :
  arg1_precedes_arg2 d = true ->
  Arg1_SpanList d = [] \/ Arg2_SpanList d = [] \/
  (Relation d <> "Implicit"%string /\ Connective_SpanList d = []) ->
  adjacency_check arg1_precedes_arg2 d = Raise ValueError /\
  (forall b, adjacency_check arg1_precedes_arg2 d <> Return b).
Proof.
  intros Hp Hempty.
  assert (H : adjacency_check arg1_precedes_arg2 d = Raise ValueError).
  { rewrite adjacency_check_unfold, Hp. unfold adjacency_of.
    destruct (py_max (flatten (Arg1_SpanList d))) as [a1|e1] eqn:E1; cbn;
      [| now apply py_max_Raise in E1 as [_ ->]].
    destruct (py_min (flatten (Arg2_SpanList d))) as [a2|e2] eqn:E2; cbn;
      [| now apply py_min_Raise in E2 as [_ ->]].
    destruct Hempty as [E | [E | [Hrel E]]].
    - rewrite E in E1. discriminate.
    - rewrite E in E2. discriminate.
    - apply String.eqb_neq in Hrel. now rewrite Hrel, E. }
  split; [exact H | intros b; rewrite H; discriminate].
Qed.

Lemma adjacency_check_empty_raises_witness :
  adjacency_check arg1_starts_first
    (sample "Explicit" [(0, 10)] [(16, 30)] []) = Raise ValueError.
Proof.
  apply (adjacency_check_empty_raises arg1_starts_first
           (sample "Explicit" [(0, 10)] [(16, 30)] [])).
  - reflexivity.
  - right; right. split; [discriminate | reflexivity].
Defined.

(** C1: for a record whose relation is Implicit and with
    [arg1_precedes_arg2()] true, [adjacency_check] returns [True] exactly
    when [arg2_start - arg1_finish <= 3], with [arg1_finish] the largest
    offset of [Arg1_SpanList] and [arg2_start] the smallest offset of
    [Arg2_SpanList] (and [False] exactly when the gap exceeds 3); records
    that differ in [Connective_SpanList], or in any attribute other than
    the two argument span lists, get the same result. *)
Theorem adjacency_check_implicit
    (arg1_precedes_arg2 : Datum -> bool) (d : Datum) :
  Relation d = "Implicit"%string ->
  arg1_precedes_arg2 d = true ->
  (adjacency_check arg1_precedes_arg2 d = Return true <->
   exists arg1_finish arg2_start,
     is_max arg1_finish (flatten (Arg1_SpanList d)) /\
     is_min arg2_start (flatten (Arg2_SpanList d)) /\
     arg2_start - arg1_finish <= 3) /\
  (adjacency_check arg1_precedes_arg2 d = Return false <->
   exists arg1_finish arg2_start,
     is_max arg1_finish (flatten (Arg1_SpanList d)) /\
     is_min arg2_start (flatten (Arg2_SpanList d)) /\
     ~ arg2_start - arg1_finish <= 3) /\
  (forall d',
     Relation d' = "Implicit"%string ->
     arg1_precedes_arg2 d' = true ->
     Arg1_SpanList d' = Arg1_SpanList d ->
     Arg2_SpanList d' = Arg2_SpanList d ->
     adjacency_check arg1_precedes_arg2 d' = adjacency_check arg1_precedes_arg2 d).
Proof.
  intros Hrel Hp.
  assert (Hval : forall b,
    adjacency_check arg1_precedes_arg2 d = Return b <->
    exists a1 a2,
      is_max a1 (flatten (Arg1_SpanList d)) /\
      is_min a2 (flatten (Arg2_SpanList d)) /\ (a2 - a1 <=? 3) = b).
  { intros b. split.
    - rewrite adjacency_check_unfold, Hp, Hrel. unfold adjacency_of; cbn.
      destruct (py_max (flatten (Arg1_SpanList d))) as [a1|] eqn:E1; cbn;
        [| discriminate].
      destruct (py_min (flatten (Arg2_SpanList d))) as [a2|] eqn:E2; cbn;
        [| discriminate].
      intros [= <-]. exists a1, a2.
      apply py_max_Return in E1. apply py_min_Return in E2.
      split; [exact E1 | split; [exact E2 | reflexivity]].
    - intros (a1 & a2 & H1 & H2 & <-).
      now apply adjacency_check_implicit_value. }
  split; [| split].
  - rewrite Hval. split; intros (a1 & a2 & H1 & H2 & H3); exists a1, a2;
      (split; [exact H1 | split; [exact H2 |]]).
    + now apply Z.leb_le.
    + now apply Z.leb_le.
  - rewrite Hval. split; intros (a1 & a2 & H1 & H2 & H3); exists a1, a2;
      (split; [exact H1 | split; [exact H2 |]]).
    + apply Z.leb_gt in H3. lia.
    + apply Z.leb_gt. lia.
  - intros d' Hrel' Hp' E1 E2.
    rewrite !adjacency_check_unfold, Hp, Hp', Hrel, Hrel', E1, E2.
    unfold adjacency_of; cbn.
    destruct (py_max (flatten (Arg1_SpanList d))); cbn; [| reflexivity].
    now destruct (py_min (flatten (Arg2_SpanList d))).
Qed.

Lemma adjacency_check_implicit_witness :
  adjacency_check arg1_starts_first
    (sample "Implicit" [(0, 10)] [(12, 30)] []) = Return true.
Proof.
  apply (proj1 (adjacency_check_implicit arg1_starts_first
                  (sample "Implicit" [(0, 10)] [(12, 30)] [])
                  eq_refl eq_refl)).
  exists 10, 12. repeat split; cbn; try lia; intuition lia.
Defined.

(** C2: for a record whose relation is not Implicit, with
    [arg1_precedes_arg2()] true and the three span lists non-empty,
    [adjacency_check] returns [True] exactly when both
    [conn_start - arg1_finish <= 3] and [arg2_start - conn_finish <= 3]
    (and [False] otherwise), where [conn_start] and [conn_finish] are the
    smallest and the largest offset of [Connective_SpanList]. *)
Theorem adjacency_check_explicit
    (arg1_precedes_arg2 : Datum -> bool) (d : Datum) :
  Relation d <> "Implicit"%string ->
  arg1_precedes_arg2 d = true ->
  Arg1_SpanList d <> [] ->
  Arg2_SpanList d <> [] ->
  Connective_SpanList d <> [] ->
  exists arg1_finish arg2_start conn_start conn_finish,
    is_max arg1_finish (flatten (Arg1_SpanList d)) /\
    is_min arg2_start (flatten (Arg2_SpanList d)) /\
    is_min conn_start (flatten (Connective_SpanList d)) /\
    is_max conn_finish (flatten (Connective_SpanList d)) /\
    (adjacency_check arg1_precedes_arg2 d = Return true <->
     conn_start - arg1_finish <= 3 /\ arg2_start - conn_finish <= 3) /\
    (adjacency_check arg1_precedes_arg2 d = Return false <->
     ~ (conn_start - arg1_finish <= 3 /\ arg2_start - conn_finish <= 3)).
Proof.
  intros Hrel Hp Hne1 Hne2 Hne3.
  destruct (py_max_total _ Hne1) as [a1 E1].
  destruct (py_min_total _ Hne2) as [a2 E2].
  destruct (py_min_total _ Hne3) as [cs E3].
  destruct (py_max_total _ Hne3) as [cf E4].
  apply py_max_Return in E1, E4. apply py_min_Return in E2, E3.
  exists a1, a2, cs, cf. repeat (split; [assumption |]).
  rewrite (adjacency_check_explicit_value arg1_precedes_arg2 d a1 a2 cs cf)
    by assumption.
  destruct (Z.leb_spec (cs - a1) 3), (Z.leb_spec (a2 - cf) 3); cbn;
    split; split; intros; try discriminate; try reflexivity; lia.
Qed.

Lemma adjacency_check_explicit_witness :
  exists arg1_finish arg2_start conn_start conn_finish,
    let d := sample "Explicit" [(0, 10)] [(16, 30)] [(11, 15)] in
    is_max arg1_finish (flatten (Arg1_SpanList d)) /\
    is_min arg2_start (flatten (Arg2_SpanList d)) /\
    is_min conn_start (flatten (Connective_SpanList d)) /\
    is_max conn_finish (flatten (Connective_SpanList d)) /\
    (adjacency_check arg1_starts_first d = Return true <->
     conn_start - arg1_finish <= 3 /\ arg2_start - conn_finish <= 3) /\
    (adjacency_check arg1_starts_first d = Return false <->
     ~ (conn_start - arg1_finish <= 3 /\ arg2_start - conn_finish <= 3)).
Proof.
  apply (adjacency_check_explicit arg1_starts_first
           (sample "Explicit" [(0, 10)] [(16, 30)] [(11, 15)])).
  - discriminate.
  - reflexivity.
  - discriminate.
  - discriminate.
  - discriminate.
Defined.

(** C8: the tolerance of 3 bounds the gaps from above only.  With
    [arg1_precedes_arg2()] true and the aggregated span lists non-empty, a
    negative gap passes its comparison: an Implicit record whose
    [arg2_start] lies before [arg1_finish] is adjacent, and for the other
    relations a negative gap leaves the outcome to the other gap alone (two
    negative gaps give [True]).  Nothing requires a gap to be
    non-negative. *)
Theorem adjacency_check_negative_gap
    (arg1_precedes_arg2 : Datum -> bool) (d : Datum)
    (arg1_finish arg2_start : Z) :
  arg1_precedes_arg2 d = true ->
  is_max arg1_finish (flatten (Arg1_SpanList d)) ->
  is_min arg2_start (flatten (Arg2_SpanList d)) ->
  (Relation d = "Implicit"%string ->
   arg2_start - arg1_finish < 0 ->
   adjacency_check arg1_precedes_arg2 d = Return true) /\
  (forall conn_start conn_finish,
     Relation d <> "Implicit"%string ->
     is_min conn_start (flatten (Connective_SpanList d)) ->
     is_max conn_finish (flatten (Connective_SpanList d)) ->
     (conn_start - arg1_finish < 0 ->
      adjacency_check arg1_precedes_arg2 d
      = Return (arg2_start - conn_finish <=? 3)) /\
     (arg2_start - conn_finish < 0 ->
      adjacency_check arg1_precedes_arg2 d
      = Return (conn_start - arg1_finish <=? 3)) /\
     (conn_start - arg1_finish < 0 ->
      arg2_start - conn_finish < 0 ->
      adjacency_check arg1_precedes_arg2 d = Return true)).
Proof.
  intros Hp H1 H2. split.
  - intros Hrel Hgap.
    rewrite (adjacency_check_implicit_value _ d arg1_finish arg2_start)
      by assumption.
    f_equal. apply Z.leb_le. lia.
  - intros cs cf Hrel H3 H4.
    rewrite (adjacency_check_explicit_value _ d arg1_finish arg2_start cs cf)
      by assumption.
    repeat split.
    + intros Hgap. replace (cs - arg1_finish <=? 3) with true
        by (symmetry; apply Z.leb_le; lia).
      reflexivity.
    + intros Hgap. replace (arg2_start - cf <=? 3) with true
        by (symmetry; apply Z.leb_le; lia).
      now rewrite andb_true_r.
    + intros Hgap1 Hgap2.
      replace (cs - arg1_finish <=? 3) with true
        by (symmetry; apply Z.leb_le; lia).
      replace (arg2_start - cf <=? 3) with true
        by (symmetry; apply Z.leb_le; lia).
      reflexivity.
Qed.

Lemma is_max_pair (a b : Z) : a <= b -> is_max b (flatten [(a, b)]).
Proof.
  intros Hab. split; cbn; [now right; left | intros x [<- | [<- | []]]; lia].
Qed.

Lemma is_min_pair (a b : Z) : a <= b -> is_min a (flatten [(a, b)]).
Proof.
  intros Hab. split; cbn; [now left | intros x [<- | [<- | []]]; lia].
Qed.

(** Arg2 starts at offset 5, inside Arg1 (0..10): the gap is -5 and the
    record counts as adjacent. *)
Lemma adjacency_check_negative_gap_witness :
  arg1_starts_first (sample "Implicit" [(0, 10)] [(5, 20)] []) = true /\
  5 - 10 < 0 /\
  adjacency_check arg1_starts_first
    (sample "Implicit" [(0, 10)] [(5, 20)] []) = Return true.
Proof.
  split; [reflexivity | split; [lia |]].
  apply (proj1 (adjacency_check_negative_gap arg1_starts_first
                  (sample "Implicit" [(0, 10)] [(5, 20)] []) 10 5
                  eq_refl
                  (is_max_pair 0 10 ltac:(lia))
                  (is_min_pair 5 20 ltac:(lia)))).
  - reflexivity.
  - lia.
Defined.

(** C9: [adjacency_check] is a function of [arg1_precedes_arg2()], of
    [Relation], of the maximum of the flattened [Arg1_SpanList], of the
    minimum of the flattened [Arg2_SpanList] and, when the relation is not
    Implicit, of the minimum and maximum of the flattened
    [Connective_SpanList]: two records that agree on these get the same
    result.  In particular the result is unchanged when the spans of the
    three lists are permuted; gaps between the spans of one argument play
    no part. *)
Theorem adjacency_check_extrema_only
    (arg1_precedes_arg2 : Datum -> bool) (d d' : Datum) :
  arg1_precedes_arg2 d = arg1_precedes_arg2 d' ->
  Relation d = Relation d' ->
  (py_max (flatten (Arg1_SpanList d)) = py_max (flatten (Arg1_SpanList d')) ->
   py_min (flatten (Arg2_SpanList d)) = py_min (flatten (Arg2_SpanList d')) ->
   (Relation d <> "Implicit"%string ->
    py_min (flatten (Connective_SpanList d))
    = py_min (flatten (Connective_SpanList d')) /\
    py_max (flatten (Connective_SpanList d))
    = py_max (flatten (Connective_SpanList d'))) ->
   adjacency_check arg1_precedes_arg2 d = adjacency_check arg1_precedes_arg2 d') /\
  (Permutation (Arg1_SpanList d) (Arg1_SpanList d') ->
   Permutation (Arg2_SpanList d) (Arg2_SpanList d') ->
   Permutation (Connective_SpanList d) (Connective_SpanList d') ->
   adjacency_check arg1_precedes_arg2 d = adjacency_check arg1_precedes_arg2 d').
Proof.
  intros Hp Hrel.
  assert (Hmain :
    py_max (flatten (Arg1_SpanList d)) = py_max (flatten (Arg1_SpanList d')) ->
    py_min (flatten (Arg2_SpanList d)) = py_min (flatten (Arg2_SpanList d')) ->
    (Relation d <> "Implicit"%string ->
     py_min (flatten (Connective_SpanList d))
     = py_min (flatten (Connective_SpanList d')) /\
     py_max (flatten (Connective_SpanList d))
     = py_max (flatten (Connective_SpanList d'))) ->
    adjacency_check arg1_precedes_arg2 d
    = adjacency_check arg1_precedes_arg2 d').
  { intros E1 E2 E3.
    rewrite !adjacency_check_unfold, <- Hp, <- Hrel, <- E1, <- E2.
    destruct (arg1_precedes_arg2 d); [| reflexivity].
    destruct (String.eqb_spec (Relation d) "Implicit") as [Himp | Hexp].
    - unfold adjacency_of.
      destruct (py_max (flatten (Arg1_SpanList d))); cbn; [| reflexivity].
      now destruct (py_min (flatten (Arg2_SpanList d))).
    - destruct (E3 Hexp) as [<- <-]. reflexivity. }
  split; [exact Hmain |].
  intros P1 P2 P3. apply Hmain.
  - now apply py_max_perm, flatten_perm.
  - now apply py_min_perm, flatten_perm.
  - intros _. split; [apply py_min_perm | apply py_max_perm];
      now apply flatten_perm.
Qed.

(** A discontinuous Arg1 with an interior span added and the spans
    reordered: same extrema, same outcome. *)
Lemma adjacency_check_extrema_only_witness :
  adjacency_check arg1_starts_first
    (sample "Explicit" [(0, 4); (8, 10)] [(16, 30)] [(11, 15)])
  = adjacency_check arg1_starts_first
      (sample "Explicit" [(8, 10); (5, 6); (0, 4)] [(16, 30)] [(11, 15)]).
Proof.
  apply (proj1 (adjacency_check_extrema_only arg1_starts_first
           (sample "Explicit" [(0, 4); (8, 10)] [(16, 30)] [(11, 15)])
           (sample "Explicit" [(8, 10); (5, 6); (0, 4)] [(16, 30)] [(11, 15)])
           eq_refl eq_refl)).
  - reflexivity.
  - reflexivity.
  - intros _. split; reflexivity.
Defined.

(** ** The dictionary *)

Section DictFacts.

Context {V : Type}.
Implicit Types (d : dict V) (k : string) (v : V).

Lemma entries_for_absent d k :
  ~ In k (dict_keys d) -> entries_for k d = [].
Proof.
  induction d as [|[k' v'] rest IH]; cbn; intros Hnotin; [reflexivity |].
  destruct (String.eqb_spec k' k) as [-> | Hne].
  - exfalso. apply Hnotin. now left.
  - apply IH. intros Hin. apply Hnotin. now right.
Qed.

Lemma dict_keys_set d k v k' :
  In k' (dict_keys (dict_set k v d)) <-> k' = k \/ In k' (dict_keys d).
Proof.
  induction d as [|[k0 v0] rest IH]; cbn.
  - intuition congruence.
  - destruct (String.eqb_spec k0 k) as [-> | Hne]; cbn.
    + intuition congruence.
    + rewrite IH. intuition congruence.
Qed.

Lemma dict_keys_set_NoDup d k v :
  NoDup (dict_keys d) -> NoDup (dict_keys (dict_set k v d)).
Proof.
  induction d as [|[k0 v0] rest IH]; cbn; intros Hnd.
  - constructor; [intros [] | constructor].
  - inversion Hnd as [| ? ? Hnotin Hrest]; subst.
    destruct (String.eqb_spec k0 k) as [-> | Hne]; cbn.
    + now constructor.
    + constructor; [| now apply IH].
      intros Hin. apply dict_keys_set in Hin as [-> | Hin]; auto.
Qed.

Lemma entries_for_set_same d k v :
  NoDup (dict_keys d) -> entries_for k (dict_set k v d) = [(k, v)].
Proof.
  induction d as [|[k0 v0] rest IH]; cbn; intros Hnd.
  - now rewrite String.eqb_refl.
  - inversion Hnd as [| ? ? Hnotin Hrest]; subst.
    destruct (String.eqb_spec k0 k) as [-> | Hne]; cbn.
    + rewrite String.eqb_refl. f_equal. now apply entries_for_absent.
    + apply String.eqb_neq in Hne. rewrite Hne. now apply IH.
Qed.

Lemma entries_for_set_other d k v k' :
  k <> k' -> entries_for k' (dict_set k v d) = entries_for k' d.
Proof.
  intros Hne. unfold entries_for.
  induction d as [|[k0 v0] rest IH]; cbn.
  - apply String.eqb_neq in Hne. now rewrite Hne.
  - destruct (String.eqb_spec k0 k) as [-> | Hne0]; cbn.
    + apply String.eqb_neq in Hne. now rewrite Hne.
    + destruct (String.eqb k0 k'); [f_equal |]; exact IH.
Qed.

Lemma dict_get_entries d k v :
  entries_for k d = [(k, v)] -> dict_get k d = Some v.
Proof.
  induction d as [|[k0 v0] rest IH]; cbn; [discriminate |].
  destruct (String.eqb_spec k0 k) as [-> | Hne]; [congruence | exact IH].
Qed.

End DictFacts.

(** ** [connective_initial] *)

Section Extraction.

Variable arg1_precedes_arg2 : Datum -> bool.
Variable conn_str : Datum -> bool -> option string.
Variable sem_re_search : option string -> result bool.

(** An iteration of the loop stores the record exactly when the filter
    chain holds, and raises exactly when the chain raises. *)
Lemma body_filter (st : LoopState) (d : Datum) :
  connective_initial_body arg1_precedes_arg2 conn_str sem_re_search st d =
    (ok <- isSimpleExtractable arg1_precedes_arg2 sem_re_search d ;;
     Return (if ok then keep conn_str st d else st)).
Proof.
  unfold connective_initial_body, isSimpleExtractable, keep.
  destruct (_ && _ && _); [| reflexivity].
  destruct (sem_re_search _) as [[|]|]; cbn; try reflexivity.
  destruct (adjacency_check _ _) as [[|]|]; cbn; try reflexivity.
  now destruct (_ || _).
Qed.

Lemma loop_app (st : LoopState) (l1 l2 : list Datum) :
  connective_initial_loop arg1_precedes_arg2 conn_str sem_re_search st (l1 ++ l2)
  = (st' <- connective_initial_loop arg1_precedes_arg2 conn_str sem_re_search
              st l1 ;;
     connective_initial_loop arg1_precedes_arg2 conn_str sem_re_search st' l2).
Proof.
  revert st. induction l1 as [|d l1 IH]; intros st; cbn; [reflexivity |].
  destruct (connective_initial_body _ _ _ st d) as [st1|e]; cbn;
    [apply IH | reflexivity].
Qed.

Lemma loop_cons (st : LoopState) (d : Datum) (rest : list Datum) :
  connective_initial_loop arg1_precedes_arg2 conn_str sem_re_search st (d :: rest)
  = (st' <- connective_initial_body arg1_precedes_arg2 conn_str sem_re_search
              st d ;;
     connective_initial_loop arg1_precedes_arg2 conn_str sem_re_search st' rest).
Proof. reflexivity. Qed.

(** The pass runs to its end when no record makes the filter chain raise. *)
Lemma loop_total (data : list Datum) :
  (forall d, In d data ->
     exists ok,
       isSimpleExtractable arg1_precedes_arg2 sem_re_search d = Return ok) ->
  forall st,
    exists st',
      connective_initial_loop arg1_precedes_arg2 conn_str sem_re_search st data
      = Return st'.
Proof.
  induction data as [|d rest IH]; intros Hok st.
  - now exists st.
  - rewrite loop_cons, body_filter.
    destruct (Hok d (or_introl eq_refl)) as [ok ->]; cbn.
    apply IH. intros d' Hd'. apply Hok. now right.
Qed.

(** No key occurs twice in [keepers]. *)
Lemma loop_NoDup (data : list Datum) :
  forall st st',
    connective_initial_loop arg1_precedes_arg2 conn_str sem_re_search st data
    = Return st' ->
    NoDup (dict_keys (keepers st)) -> NoDup (dict_keys (keepers st')).
Proof.
  induction data as [|d rest IH]; intros st st'.
  - cbn. now intros [= <-].
  - rewrite loop_cons, body_filter.
    destruct (isSimpleExtractable _ _ d) as [ok|]; cbn; [| discriminate].
    intros Hloop Hnd. apply (IH _ _ Hloop).
    destruct ok; [apply dict_keys_set_NoDup |]; exact Hnd.
Qed.

(** Records of other files leave the entries of [id] alone. *)
Lemma loop_entries_other (id : string) (data : list Datum) :
  (forall d, In d data ->
     isSimpleExtractable arg1_precedes_arg2 sem_re_search d = Return true ->
     itemId_of d <> id) ->
  forall st st',
    connective_initial_loop arg1_precedes_arg2 conn_str sem_re_search st data
    = Return st' ->
    entries_for id (keepers st') = entries_for id (keepers st).
Proof.
  induction data as [|d rest IH]; intros Hother st st'.
  - cbn. now intros [= <-].
  - rewrite loop_cons, body_filter.
    destruct (isSimpleExtractable _ _ d) as [ok|] eqn:E; cbn; [| discriminate].
    intros Hloop.
    rewrite (IH (fun d' Hd' => Hother d' (or_intror Hd')) _ _ Hloop).
    destruct ok; [| reflexivity].
    apply entries_for_set_other. apply Hother; [now left | exact E].
Qed.

(** The keys after the pass: those present before it and the item ids of
    the qualifying records. *)
Lemma loop_keys (data : list Datum) :
  forall st st' id,
    connective_initial_loop arg1_precedes_arg2 conn_str sem_re_search st data
    = Return st' ->
    (In id (dict_keys (keepers st')) <->
     In id (dict_keys (keepers st)) \/
     exists d,
       In d data /\
       isSimpleExtractable arg1_precedes_arg2 sem_re_search d = Return true /\
       itemId_of d = id).
Proof.
  induction data as [|d rest IH]; intros st st' id.
  - cbn. intros [= <-]. split; [now left | intros [H | (d & [] & _)]; exact H].
  - rewrite loop_cons, body_filter.
    destruct (isSimpleExtractable _ _ d) as [ok|] eqn:E; cbn; [| discriminate].
    intros Hloop. rewrite (IH _ _ id Hloop).
    destruct ok; unfold keep; cbn [keepers].
    + rewrite dict_keys_set. split.
      * intros [[-> | Hin] | (d' & Hd' & Hq & Hid)].
        -- right. exists d. now repeat split; try left.
        -- now left.
        -- right. exists d'. now repeat split; try right.
      * intros [Hin | (d' & [<- | Hd'] & Hq & Hid)].
        -- left. now right.
        -- left. now left.
        -- right. now exists d'.
    + split.
      * intros [Hin | (d' & Hd' & Hq & Hid)]; [now left |].
        right. exists d'. now repeat split; try right.
      * intros [Hin | (d' & [<- | Hd'] & Hq & Hid)]; [now left | congruence |].
        right. now exists d'.
Qed.

End Extraction.

(** C6: a record with a non-empty [Sup1_RawText] or [Sup2_RawText] fails
    the filter chain of [connective_initial] and leaves [keepers] (and the
    whole loop state) as it was, whatever the relation type, the semantic
    class, the adjacency and the connective are. *)
Theorem supplementary_text_excluded
    (arg1_precedes_arg2 : Datum -> bool)
    (conn_str : Datum -> bool -> option string)
    (sem_re_search : option string -> result bool) (d : Datum) :
  truthy (Sup1_RawText d) = true \/ truthy (Sup2_RawText d) = true ->
  isSimpleExtractable arg1_precedes_arg2 sem_re_search d = Return false /\
  (forall st,
     connective_initial_body arg1_precedes_arg2 conn_str sem_re_search st d
     = Return st).
Proof.
  intros Hsup.
  assert (Hf : isSimpleExtractable arg1_precedes_arg2 sem_re_search d
               = Return false).
  { unfold isSimpleExtractable.
    destruct Hsup as [-> | ->]; cbn; [now rewrite andb_false_r | ].
    now rewrite andb_false_r. }
  split; [exact Hf |].
  intros st. rewrite body_filter, Hf. reflexivity.
Qed.

Lemma supplementary_text_excluded_witness :
  truthy (Sup1_RawText with_sup1) = true /\
  isSimpleExtractable arg1_starts_first contingency with_sup1 = Return false /\
  connective_initial_body arg1_starts_first conn_raw contingency
    initial_state with_sup1
  = Return initial_state.
Proof.
  split; [reflexivity |].
  destruct (supplementary_text_excluded arg1_starts_first conn_raw
              contingency with_sup1 (or_introl eq_refl)) as [Hf Hb].
  split; [exact Hf | apply Hb].
Defined.

(** C10: the pattern search is reached only by records whose relation is
    Implicit or Explicit and whose [Sup1_RawText] and [Sup2_RawText] are
    both falsy.  Any other record leaves the loop state unchanged for every
    pattern object, even one whose [search] always raises, and whatever its
    [ConnHeadSemClass1] is; it can be dropped from the input without changing
    the outcome of the pass.  A record that passes the test does reach the
    search: a raising [search] makes the iteration raise. *)
Theorem search_guarded_by_relation_test
    (arg1_precedes_arg2 : Datum -> bool)
    (conn_str : Datum -> bool -> option string)
    (sem_re_search : option string -> result bool) (d : Datum) :
  ((Relation d <> "Implicit"%string /\ Relation d <> "Explicit"%string) \/
   truthy (Sup1_RawText d) = true \/ truthy (Sup2_RawText d) = true ->
   isSimpleExtractable arg1_precedes_arg2 sem_re_search d = Return false /\
   (forall st,
      connective_initial_body arg1_precedes_arg2 conn_str sem_re_search st d
      = Return st) /\
   (forall st before after,
      connective_initial_loop arg1_precedes_arg2 conn_str sem_re_search st
        (before ++ d :: after)
      = connective_initial_loop arg1_precedes_arg2 conn_str sem_re_search st
          (before ++ after))) /\
  (Relation d = "Implicit"%string \/ Relation d = "Explicit"%string ->
   truthy (Sup1_RawText d) = false ->
   truthy (Sup2_RawText d) = false ->
   forall e st,
     isSimpleExtractable arg1_precedes_arg2 (raising_search e) d = Raise e /\
     connective_initial_body arg1_precedes_arg2 conn_str (raising_search e) st d
     = Raise e).
Proof.
  split.
  - intros Hskip.
    assert (Hf : isSimpleExtractable arg1_precedes_arg2 sem_re_search d
                 = Return false).
    { destruct Hskip as [[Hi He] | Hsup].
      - unfold isSimpleExtractable, str_in; cbn.
        apply String.eqb_neq in Hi, He. now rewrite Hi, He.
      - apply (supplementary_text_excluded _ conn_str _ _ Hsup). }
    assert (Hb : forall st,
      connective_initial_body arg1_precedes_arg2 conn_str sem_re_search st d
      = Return st).
    { intros st. now rewrite body_filter, Hf. }
    repeat split; trivial.
    intros st before after. rewrite !loop_app.
    destruct (connective_initial_loop _ _ _ st before) as [st1|]; cbn;
      [| reflexivity].
    now rewrite Hb.
  - intros Hrel H1 H2 e st.
    assert (Hf : isSimpleExtractable arg1_precedes_arg2 (raising_search e) d
                 = Raise e).
    { unfold isSimpleExtractable, str_in; cbn. rewrite H1, H2.
      destruct Hrel as [-> | ->]; reflexivity. }
    split; [exact Hf | now rewrite body_filter, Hf].
Qed.

(** An EntRel record without [ConnHeadSemClass1] in the middle of a pass:
    the search is not attempted on it and the pass goes on. *)
Lemma search_guarded_by_relation_test_witness :
  connective_initial_body arg1_starts_first conn_raw (raising_search TypeError)
    initial_state entrel = Return initial_state /\
  connective_initial_loop arg1_starts_first conn_raw contingency initial_state
    [first_of_03; entrel; second_of_03]
  = connective_initial_loop arg1_starts_first conn_raw contingency initial_state
      [first_of_03; second_of_03].
Proof.
  split.
  - apply (proj1 (search_guarded_by_relation_test arg1_starts_first conn_raw
                    (raising_search TypeError) entrel)).
    left. split; discriminate.
  - change [first_of_03; entrel; second_of_03]
      with ([first_of_03] ++ entrel :: [second_of_03]).
    change [first_of_03; second_of_03] with ([first_of_03] ++ [second_of_03]).
    assert (Hrel : Relation entrel <> "Implicit"%string /\
                   Relation entrel <> "Explicit"%string)
      by (split; discriminate).
    destruct (proj1 (search_guarded_by_relation_test
                       arg1_starts_first conn_raw contingency entrel)
                (or_introl Hrel)) as (_ & _ & Hdrop).
    apply Hdrop.
Defined.

(** C5, as the code has it: for a record whose relation is Explicit or
    Implicit and whose supplementary texts are falsy, an absent
    [ConnHeadSemClass1] makes the search of a compiled pattern raise
    [TypeError]; the error leaves the filter chain and the loop, so the
    record is not stored and the pass ends with that error. *)
Theorem absent_semclass_raises
    (arg1_precedes_arg2 : Datum -> bool)
    (conn_str : Datum -> bool -> option string)
    (matches : string -> bool) (d : Datum) :
  Relation d = "Implicit"%string \/ Relation d = "Explicit"%string ->
  truthy (Sup1_RawText d) = false ->
  truthy (Sup2_RawText d) = false ->
  ConnHeadSemClass1 d = None ->
  isSimpleExtractable arg1_precedes_arg2 (re_search matches) d = Raise TypeError /\
  (forall st,
     connective_initial_body arg1_precedes_arg2 conn_str (re_search matches) st d
     = Raise TypeError) /\
  (forall st before after,
     (forall d', In d' before ->
        exists ok,
          isSimpleExtractable arg1_precedes_arg2 (re_search matches) d'
          = Return ok) ->
     connective_initial_loop arg1_precedes_arg2 conn_str (re_search matches) st
       (before ++ d :: after)
     = Raise TypeError).
Proof.
  intros Hrel H1 H2 Hnone.
  assert (Hf : isSimpleExtractable arg1_precedes_arg2 (re_search matches) d
               = Raise TypeError).
  { unfold isSimpleExtractable, str_in; cbn. rewrite H1, H2, Hnone.
    destruct Hrel as [-> | ->]; reflexivity. }
  assert (Hb : forall st,
    connective_initial_body arg1_precedes_arg2 conn_str (re_search matches) st d
    = Raise TypeError).
  { intros st. now rewrite body_filter, Hf. }
  repeat split; trivial.
  intros st before after Hok. rewrite loop_app.
  destruct (loop_total arg1_precedes_arg2 conn_str (re_search matches)
              before Hok st) as [st1 ->]; cbn.
  now rewrite Hb.
Qed.

Lemma absent_semclass_raises_witness :
  isSimpleExtractable arg1_starts_first contingency no_semclass = Raise TypeError.
Proof.
  apply (proj1 (absent_semclass_raises arg1_starts_first conn_raw
                  (contains "Contingency") no_semclass
                  (or_intror eq_refl) eq_refl eq_refl eq_refl)).
Defined.

(** C5 as stated fails: an Explicit record without supplementary text and
    without [ConnHeadSemClass1] does not count as a non-match; the filter
    chain raises, and so does the whole of [connective_initial]. *)
Lemma absent_semclass_counterexample :
  Relation no_semclass = "Explicit"%string /\
  truthy (Sup1_RawText no_semclass) = false /\
  truthy (Sup2_RawText no_semclass) = false /\
  ConnHeadSemClass1 no_semclass = None /\
  isSimpleExtractable arg1_starts_first contingency no_semclass <> Return false /\
  isSimpleExtractable arg1_starts_first contingency no_semclass = Raise TypeError /\
  connective_initial arg1_starts_first conn_raw contingency [no_semclass]
  = Raise TypeError.
Proof.
  repeat split; try reflexivity. discriminate.
Qed.

(** C7: when no record makes the pass fail, [connective_initial] runs to
    the end and its [keepers] has no key twice.  For a qualifying record
    after which no qualifying record has the same item id (the last one of
    its file), the dictionary holds exactly one entry under that item id,
    and it is the row of that record, however many qualifying records of
    the same file came before.  A key present at some point of the pass is
    still present at the end, and every qualifying record's item id is a
    key of the result. *)
Theorem last_match_wins
    (arg1_precedes_arg2 : Datum -> bool)
    (conn_str : Datum -> bool -> option string)
    (sem_re_search : option string -> result bool) (data : list Datum) :
  (forall d, In d data ->
     exists ok, isSimpleExtractable arg1_precedes_arg2 sem_re_search d = Return ok) ->
  exists st,
    connective_initial_loop arg1_precedes_arg2 conn_str sem_re_search
      initial_state data = Return st /\
    connective_initial arg1_precedes_arg2 conn_str sem_re_search data
    = Return (csv_header :: dict_values (keepers st),
              stdout st ++ ["CSV created."%string]) /\
    NoDup (dict_keys (keepers st)) /\
    (forall before d after,
       data = before ++ d :: after ->
       isSimpleExtractable arg1_precedes_arg2 sem_re_search d = Return true ->
       (forall d', In d' after ->
          isSimpleExtractable arg1_precedes_arg2 sem_re_search d' = Return true ->
          itemId_of d' <> itemId_of d) ->
       entries_for (itemId_of d) (keepers st)
       = [(itemId_of d, row_of conn_str d)]) /\
    (forall before after st_mid id,
       data = before ++ after ->
       connective_initial_loop arg1_precedes_arg2 conn_str sem_re_search
         initial_state before = Return st_mid ->
       In id (dict_keys (keepers st_mid)) ->
       In id (dict_keys (keepers st))) /\
    (forall d, In d data ->
       isSimpleExtractable arg1_precedes_arg2 sem_re_search d = Return true ->
       In (itemId_of d) (dict_keys (keepers st))).
Proof.
  intros Hok.
  destruct (loop_total arg1_precedes_arg2 conn_str sem_re_search data Hok
              initial_state) as [st Hloop].
  exists st. split; [exact Hloop |].
  split; [unfold connective_initial; now rewrite Hloop |].
  split; [apply (loop_NoDup _ _ _ _ _ _ Hloop); constructor |].
  split; [| split].
  - intros before d after -> Hq Hother.
    rewrite loop_app in Hloop.
    destruct (connective_initial_loop _ _ _ initial_state before)
      as [st1|] eqn:Hbefore; cbv beta iota delta [bind] in Hloop;
      [| discriminate].
    rewrite loop_cons, body_filter, Hq in Hloop.
    cbv beta iota delta [bind] in Hloop.
    rewrite (loop_entries_other _ _ _ _ _ Hother _ _ Hloop).
    apply entries_for_set_same.
    apply (loop_NoDup _ _ _ _ _ _ Hbefore). constructor.
  - intros before after st_mid id -> Hbefore Hin.
    rewrite loop_app, Hbefore in Hloop. cbv beta iota delta [bind] in Hloop.
    apply (loop_keys _ _ _ _ _ _ id Hloop). now left.
  - intros d Hd Hq.
    apply (loop_keys _ _ _ _ _ _ (itemId_of d) Hloop).
    right. now exists d.
Qed.

(** Two qualifying records of file 00/03 with an EntRel record and a record
    of file 00/07 in between: the one entry for 00/03 is the row of the
    second. *)
Lemma last_match_wins_witness :
  exists st,
    connective_initial_loop arg1_starts_first conn_raw contingency initial_state
      [first_of_03; entrel; only_of_07; second_of_03] = Return st /\
    entries_for "00/03" (keepers st)
    = [("00/03"%string, row_of conn_raw second_of_03)] /\
    In "00/07"%string (dict_keys (keepers st)).
Proof.
  destruct (last_match_wins arg1_starts_first conn_raw contingency
              [first_of_03; entrel; only_of_07; second_of_03])
    as (st & Hloop & _ & _ & Hlast & _ & Hkeys).
  - intros d [<- | [<- | [<- | [<- | []]]]]; eexists; vm_compute; reflexivity.
  - exists st. split; [exact Hloop |]. split.
    + apply (Hlast [first_of_03; entrel; only_of_07] second_of_03 []).
      * reflexivity.
      * vm_compute; reflexivity.
      * intros d' [].
    + apply (Hkeys only_of_07).
      * right; right; now left.
      * vm_compute; reflexivity.
Defined.

(** ** Further properties of [adjacency_check] *)

Lemma flatten_shift (k : Z) (spans : SpanList) :
  flatten (shift_spans k spans) = map (fun x => x + k) (flatten spans).
Proof.
  induction spans as [|[a b] rest IH]; cbn; [reflexivity |].
  f_equal. f_equal. exact IH.
Qed.

Lemma py_max_shift (k : Z) (xs : list Z) :
  py_max (map (fun x => x + k) xs) = (m <- py_max xs ;; Return (m + k)).
Proof.
  destruct (py_max xs) as [m|e] eqn:E; cbn.
  - apply py_max_Return. apply py_max_Return in E as [Hin Hub]. split.
    + apply in_map_iff. now exists m.
    + intros y Hy. apply in_map_iff in Hy as (x & <- & Hx).
      apply Hub in Hx. lia.
  - apply py_max_Raise in E as [-> ->]. reflexivity.
Qed.

Lemma py_min_shift (k : Z) (xs : list Z) :
  py_min (map (fun x => x + k) xs) = (m <- py_min xs ;; Return (m + k)).
Proof.
  destruct (py_min xs) as [m|e] eqn:E; cbn.
  - apply py_min_Return. apply py_min_Return in E as [Hin Hlb]. split.
    + apply in_map_iff. now exists m.
    + intros y Hy. apply in_map_iff in Hy as (x & <- & Hx).
      apply Hlb in Hx. lia.
  - apply py_min_Raise in E as [-> ->]. reflexivity.
Qed.

(** X1: [adjacency_check] raises in exactly one situation: the precedence
    test has passed and a span list it takes [min]/[max] of is empty.  The
    error is always the [ValueError] of [min]/[max]. *)
Theorem adjacency_check_raises_iff
    (arg1_precedes_arg2 : Datum -> bool) (d : Datum) (e : exn) :
  adjacency_check arg1_precedes_arg2 d = Raise e <->
  e = ValueError /\
  arg1_precedes_arg2 d = true /\
  (Arg1_SpanList d = [] \/ Arg2_SpanList d = [] \/
   (Relation d <> "Implicit"%string /\ Connective_SpanList d = [])).
Proof.
  rewrite adjacency_check_unfold. unfold adjacency_of.
  destruct (arg1_precedes_arg2 d);
    [| split; [discriminate | intros (_ & [=] & _)]].
  destruct (py_max (flatten (Arg1_SpanList d))) as [a1|e1] eqn:E1; cbn.
  - apply py_max_Return in E1 as [Hin1 _].
    assert (Hne1 : Arg1_SpanList d <> []) by (intros E; now rewrite E in Hin1).
    destruct (py_min (flatten (Arg2_SpanList d))) as [a2|e2] eqn:E2; cbn.
    + apply py_min_Return in E2 as [Hin2 _].
      assert (Hne2 : Arg2_SpanList d <> [])
        by (intros E; now rewrite E in Hin2).
      destruct (String.eqb_spec (Relation d) "Implicit") as [Hrel | Hrel].
      * split; [discriminate | intros (_ & _ & [H | [H | [H _]]]); contradiction].
      * destruct (py_min (flatten (Connective_SpanList d))) as [cs|e3] eqn:E3; cbn.
        -- apply py_min_Return in E3 as [Hin3 _].
           assert (Hne3 : Connective_SpanList d <> [])
             by (intros E; now rewrite E in Hin3).
           destruct (py_max_total _ Hne3) as [cf ->]; cbn.
           split; [discriminate |].
           intros (_ & _ & [H | [H | [_ H]]]); contradiction.
        -- apply py_min_Raise in E3 as [E3 ->].
           apply flatten_nil_iff in E3.
           split; [intros [= <-] | intros (-> & _); reflexivity].
           split; [reflexivity | split; [reflexivity | right; right; now split]].
    + apply py_min_Raise in E2 as [E2 ->]. apply flatten_nil_iff in E2.
      split; [intros [= <-] | intros (-> & _); reflexivity].
      split; [reflexivity | split; [reflexivity | right; now left]].
  - apply py_max_Raise in E1 as [E1 ->]. apply flatten_nil_iff in E1.
    split; [intros [= <-] | intros (-> & _); reflexivity].
    split; [reflexivity | split; [reflexivity | now left]].
Qed.

(** X2: only distances count.  Moving every offset of a record by the same
    amount leaves the outcome of [adjacency_check] as it was, errors
    included, provided the precedence test gives the same answer. *)
Theorem adjacency_check_shift
    (arg1_precedes_arg2 : Datum -> bool) (k : Z) (d : Datum) :
  arg1_precedes_arg2 (shift k d) = arg1_precedes_arg2 d ->
  adjacency_check arg1_precedes_arg2 (shift k d)
  = adjacency_check arg1_precedes_arg2 d.
Proof.
  intros Hp. rewrite !adjacency_check_unfold, Hp. cbn [shift Relation
    Arg1_SpanList Arg2_SpanList Connective_SpanList].
  destruct (arg1_precedes_arg2 d); [| reflexivity].
  rewrite !flatten_shift, !py_max_shift, !py_min_shift.
  unfold adjacency_of.
  destruct (py_max (flatten (Arg1_SpanList d))) as [a1|]; cbn; [| reflexivity].
  destruct (py_min (flatten (Arg2_SpanList d))) as [a2|]; cbn; [| reflexivity].
  destruct (String.eqb (Relation d) "Implicit").
  - do 2 f_equal. lia.
  - destruct (py_min (flatten (Connective_SpanList d))) as [cs|]; cbn;
      [| reflexivity].
    destruct (py_max (flatten (Connective_SpanList d))) as [cf|]; cbn;
      [| reflexivity].
    do 2 f_equal; f_equal; lia.
Qed.

Lemma adjacency_check_shift_witness :
  adjacency_check arg1_starts_first
    (shift 1000 (sample "Explicit" [(0, 10)] [(16, 30)] [(11, 15)]))
  = adjacency_check arg1_starts_first
      (sample "Explicit" [(0, 10)] [(16, 30)] [(11, 15)]).
Proof.
  apply (adjacency_check_shift arg1_starts_first 1000
           (sample "Explicit" [(0, 10)] [(16, 30)] [(11, 15)])).
  reflexivity.
Defined.

(** ** Order of first occurrence *)

Lemma dedup_In (l : list string) (x : string) : In x (dedup l) <-> In x l.
Proof.
  induction l as [|y rest IH]; cbn; [reflexivity |].
  rewrite filter_In, IH. split.
  - intros [-> | [Hin _]]; [now left | now right].
  - intros [-> | Hin]; [now left |].
    destruct (String.eqb_spec x y) as [-> | Hne]; [now left | right].
    split; [exact Hin | reflexivity].
Qed.

Lemma dedup_NoDup (l : list string) : NoDup (dedup l).
Proof.
  induction l as [|y rest IH]; cbn; constructor.
  - rewrite filter_In, String.eqb_refl. now intros [_ [=]].
  - now apply NoDup_filter.
Qed.

Lemma existsb_eqb_In (k : string) (l : list string) :
  existsb (String.eqb k) l = true <-> In k l.
Proof.
  rewrite existsb_exists. split.
  - intros (x & Hin & Heq). apply String.eqb_eq in Heq. now subst.
  - intros Hin. exists k. split; [exact Hin | apply String.eqb_refl].
Qed.

Lemma existsb_dedup (k : string) (l : list string) :
  existsb (String.eqb k) (dedup l) = existsb (String.eqb k) l.
Proof.
  apply eq_true_iff_eq. now rewrite !existsb_eqb_In, dedup_In.
Qed.

Lemma dedup_snoc (l : list string) (k : string) :
  dedup (l ++ [k]) =
    if existsb (String.eqb k) l then dedup l else dedup l ++ [k].
Proof.
  induction l as [|x rest IH]; cbn; [reflexivity |].
  rewrite IH. destruct (existsb (String.eqb k) rest).
  - now rewrite orb_true_r.
  - rewrite orb_false_r, filter_app; cbn.
    destruct (String.eqb_spec k x) as [-> | Hne]; cbn.
    + now rewrite app_nil_r.
    + reflexivity.
Qed.

(** Appending each new key at the end yields the order of first
    occurrence. *)
Lemma fold_add_keys (l : list string) :
  fold_left (fun ks k => if existsb (String.eqb k) ks then ks else ks ++ [k]) l []
  = dedup l.
Proof.
  induction l as [|k l IH] using rev_ind; [reflexivity |].
  now rewrite fold_left_app, IH, dedup_snoc; cbn; rewrite existsb_dedup.
Qed.

Section DictOrder.

Context {V : Type}.
Implicit Types (d : dict V) (k : string) (v : V).

Lemma dict_keys_set_eq d k v :
  dict_keys (dict_set k v d) =
    if existsb (String.eqb k) (dict_keys d) then dict_keys d
    else dict_keys d ++ [k].
Proof.
  unfold dict_keys.
  induction d as [|[k0 v0] rest IH]; cbn; [reflexivity |].
  rewrite (String.eqb_sym k k0).
  destruct (String.eqb k0 k); cbn; [reflexivity |].
  rewrite IH. now destruct (existsb (String.eqb k) (map fst rest)).
Qed.

Lemma dict_get_set_same d k v : dict_get k (dict_set k v d) = Some v.
Proof.
  induction d as [|[k0 v0] rest IH]; cbn.
  - now rewrite String.eqb_refl.
  - destruct (String.eqb k0 k) eqn:E; cbn; now rewrite E.
Qed.

Lemma dict_get_set_other d k v k' :
  k <> k' -> dict_get k' (dict_set k v d) = dict_get k' d.
Proof.
  intros Hne. induction d as [|[k0 v0] rest IH]; cbn.
  - apply String.eqb_neq in Hne. now rewrite Hne.
  - destruct (String.eqb_spec k0 k) as [-> | Hne0]; cbn.
    + apply String.eqb_neq in Hne. now rewrite Hne.
    + now rewrite IH.
Qed.

Lemma dict_set_Forall (P : string * V -> Prop) d k v :
  Forall P d -> P (k, v) -> Forall P (dict_set k v d).
Proof.
  intros Hd Hkv. induction Hd as [|[k0 v0] rest H0 Hrest IH]; cbn.
  - now constructor.
  - destruct (String.eqb_spec k0 k) as [-> | Hne]; now constructor.
Qed.

End DictOrder.

(** ** Further properties of [connective_initial] *)

Section ExtractionOutput.

Variable arg1_precedes_arg2 : Datum -> bool.
Variable conn_str : Datum -> bool -> option string.
Variable sem_re_search : option string -> result bool.

Lemma qualifying_In (data : list Datum) (d : Datum) :
  In d (qualifying arg1_precedes_arg2 sem_re_search data) <->
  In d data /\
  isSimpleExtractable arg1_precedes_arg2 sem_re_search d = Return true.
Proof using arg1_precedes_arg2 sem_re_search.
  unfold qualifying. rewrite filter_In.
  destruct (isSimpleExtractable _ _ d) as [[|]|];
    split; intros [H1 H2]; split; trivial; discriminate.
Qed.

Lemma qualifying_idem (data : list Datum) :
  qualifying arg1_precedes_arg2 sem_re_search
    (qualifying arg1_precedes_arg2 sem_re_search data)
  = qualifying arg1_precedes_arg2 sem_re_search data.
Proof using arg1_precedes_arg2 sem_re_search.
  unfold qualifying. induction data as [|d rest IH]; cbn; [reflexivity |].
  destruct (isSimpleExtractable _ _ d) as [[|]|] eqn:E; cbn;
    rewrite ?E, IH; reflexivity.
Qed.

(** Without an error, the pass is the fold of [keep] over the qualifying
    records. *)
Lemma loop_qualifying (data : list Datum) :
  (forall d, In d data ->
     exists ok,
       isSimpleExtractable arg1_precedes_arg2 sem_re_search d = Return ok) ->
  forall st,
    connective_initial_loop arg1_precedes_arg2 conn_str sem_re_search st data
    = Return (fold_left (keep conn_str)
                (qualifying arg1_precedes_arg2 sem_re_search data) st).
Proof.
  induction data as [|d rest IH]; intros Hok st; [reflexivity |].
  rewrite loop_cons, body_filter. unfold qualifying; cbn [filter].
  destruct (Hok d (or_introl eq_refl)) as [ok ->]; cbn [bind].
  rewrite IH by (intros d' Hd'; apply Hok; now right).
  now destruct ok.
Qed.

Lemma fold_keep_stdout (l : list Datum) :
  forall st,
    stdout (fold_left (keep conn_str) l st) = stdout st ++ map itemId_of l.
Proof.
  induction l as [|d rest IH]; intros st; cbn; [now rewrite app_nil_r |].
  rewrite IH. cbn. now rewrite <- app_assoc.
Qed.

Lemma fold_keep_keys (l : list Datum) :
  forall st,
    dict_keys (keepers (fold_left (keep conn_str) l st))
    = fold_left (fun ks k => if existsb (String.eqb k) ks then ks else ks ++ [k])
        (map itemId_of l) (dict_keys (keepers st)).
Proof.
  induction l as [|d rest IH]; intros st; cbn [fold_left map]; [reflexivity |].
  rewrite IH. unfold keep; cbn [keepers]. now rewrite dict_keys_set_eq.
Qed.

Lemma fold_keep_rows (all l : list Datum) :
  (forall d, In d l -> In d all) ->
  forall st,
    Forall (fun kv => exists d,
              In d all /\ kv = (itemId_of d, row_of conn_str d))
      (keepers st) ->
    Forall (fun kv => exists d,
              In d all /\ kv = (itemId_of d, row_of conn_str d))
      (keepers (fold_left (keep conn_str) l st)).
Proof.
  induction l as [|d rest IH]; intros Hsub st Hst; cbn; [exact Hst |].
  apply IH; [intros d' Hd'; apply Hsub; now right |].
  cbn. apply dict_set_Forall; [exact Hst |].
  exists d. split; [apply Hsub; now left | reflexivity].
Qed.


End ExtractionOutput.

Lemma sample_corpus_ok (d : Datum) :
  In d sample_corpus ->
  exists ok, isSimpleExtractable arg1_starts_first contingency d = Return ok.
Proof.
  intros [<- | [<- | [<- | [<- | []]]]]; eexists; vm_compute; reflexivity.
Qed.

(** X3: when no record raises, [connective_initial] prints the item id of
    every qualifying record, in corpus order and once per record (an item
    id is repeated when a file qualifies more than once), and then
    "CSV created.". *)
Theorem connective_initial_prints
    (arg1_precedes_arg2 : Datum -> bool)
    (conn_str : Datum -> bool -> option string)
    (sem_re_search : option string -> result bool) (data : list Datum) :
  (forall d, In d data ->
     exists ok, isSimpleExtractable arg1_precedes_arg2 sem_re_search d = Return ok) ->
  exists rows,
    connective_initial arg1_precedes_arg2 conn_str sem_re_search data
    = Return (rows,
              map itemId_of (qualifying arg1_precedes_arg2 sem_re_search data)
              ++ ["CSV created."%string]).
Proof.
  intros Hok. unfold connective_initial.
  rewrite (loop_qualifying _ conn_str _ _ Hok). cbn [bind].
  rewrite fold_keep_stdout. cbn [stdout initial_state app].
  eexists. reflexivity.
Qed.

Lemma connective_initial_prints_witness :
  exists rows,
    connective_initial arg1_starts_first conn_raw contingency sample_corpus
    = Return (rows, ["00/03"; "00/07"; "00/03"; "CSV created."]%string).
Proof.
  exact (connective_initial_prints arg1_starts_first conn_raw contingency
           sample_corpus sample_corpus_ok).
Defined.

(** X4: when no record raises, the rows handed to the CSV writer are the
    header followed by one row per distinct item id of the qualifying
    records, in the order in which the item ids first qualified (a later
    record of the same file replaces the row but does not move it); each
    row is the six-column row of a qualifying record and starts with its
    item id. *)
Theorem connective_initial_rows
    (arg1_precedes_arg2 : Datum -> bool)
    (conn_str : Datum -> bool -> option string)
    (sem_re_search : option string -> result bool) (data : list Datum) :
  (forall d, In d data ->
     exists ok, isSimpleExtractable arg1_precedes_arg2 sem_re_search d = Return ok) ->
  exists rows out,
    connective_initial arg1_precedes_arg2 conn_str sem_re_search data
    = Return (csv_header :: rows, out) /\
    map (fun row => nth 0 row None) rows
    = map Some
        (dedup (map itemId_of
                  (qualifying arg1_precedes_arg2 sem_re_search data))) /\
    Forall (fun row =>
              List.length row = 6%nat /\
              exists d,
                In d (qualifying arg1_precedes_arg2 sem_re_search data) /\
                row = row_of conn_str d) rows.
Proof.
  intros Hok. unfold connective_initial.
  rewrite (loop_qualifying _ conn_str _ _ Hok). cbn [bind].
  set (q := qualifying arg1_precedes_arg2 sem_re_search data).
  set (st := fold_left (keep conn_str) q initial_state).
  exists (dict_values (keepers st)), (stdout st ++ ["CSV created."%string]).
  split; [reflexivity |].
  assert (Hrows : Forall (fun kv => exists d,
                            In d q /\ kv = (itemId_of d, row_of conn_str d))
                    (keepers st)).
  { apply fold_keep_rows; [auto | constructor]. }
  assert (Hkeys : dict_keys (keepers st) = dedup (map itemId_of q)).
  { unfold st. rewrite fold_keep_keys. apply fold_add_keys. }
  split.
  - rewrite <- Hkeys. unfold dict_values, dict_keys. rewrite !map_map.
    apply map_ext_in. intros kv Hkv.
    rewrite Forall_forall in Hrows.
    destruct (Hrows kv Hkv) as (d & _ & ->). reflexivity.
  - unfold dict_values. apply Forall_map.
    eapply Forall_impl; [| exact Hrows].
    intros kv (d & Hd & ->). split; [reflexivity | now exists d].
Qed.

Lemma connective_initial_rows_witness :
  exists rows out,
    connective_initial arg1_starts_first conn_raw contingency sample_corpus
    = Return (csv_header :: rows, out) /\
    map (fun row => nth 0 row None) rows
    = [Some "00/03"; Some "00/07"]%string.
Proof.
  destruct (connective_initial_rows arg1_starts_first conn_raw contingency
              sample_corpus sample_corpus_ok)
    as (rows & out & Heq & Hfirst & _).
  exists rows, out. split; [exact Heq | exact Hfirst].
Defined.


(** X6: records that do not qualify have no effect at all.  When no record
    raises, [connective_initial] gives on the whole corpus what it gives on
    the qualifying records alone, rows and printed lines alike. *)
Theorem connective_initial_qualifying_only
    (arg1_precedes_arg2 : Datum -> bool)
    (conn_str : Datum -> bool -> option string)
    (sem_re_search : option string -> result bool) (data : list Datum) :
  (forall d, In d data ->
     exists ok, isSimpleExtractable arg1_precedes_arg2 sem_re_search d = Return ok) ->
  connective_initial arg1_precedes_arg2 conn_str sem_re_search data
  = connective_initial arg1_precedes_arg2 conn_str sem_re_search
      (qualifying arg1_precedes_arg2 sem_re_search data).
Proof.
  intros Hok. unfold connective_initial.
  assert (Hq : forall d,
    In d (qualifying arg1_precedes_arg2 sem_re_search data) ->
    exists ok,
      isSimpleExtractable arg1_precedes_arg2 sem_re_search d = Return ok).
  { intros d Hd.
    destruct (proj1 (qualifying_In arg1_precedes_arg2 sem_re_search data d) Hd)
      as [_ Htrue].
    exists true. exact Htrue. }
  rewrite (loop_qualifying _ conn_str _ _ Hok).
  rewrite (loop_qualifying _ conn_str _ _ Hq).
  now rewrite qualifying_idem.
Qed.

Lemma connective_initial_qualifying_only_witness :
  connective_initial arg1_starts_first conn_raw contingency sample_corpus
  = connective_initial arg1_starts_first conn_raw contingency
      [first_of_03; only_of_07; second_of_03].
Proof.
  exact (connective_initial_qualifying_only arg1_starts_first conn_raw
           contingency sample_corpus sample_corpus_ok).
Defined.

(** ** Counting with a [defaultdict(int)] *)

Lemma count_of_incr (k k' : string) (d : dict Z) :
  count_of k' (dict_incr k d)
  = count_of k' d + (if String.eqb k' k then 1 else 0).
Proof.
  unfold count_of, dict_incr.
  destruct (String.eqb_spec k' k) as [-> | Hne].
  - now rewrite dict_get_set_same.
  - rewrite dict_get_set_other by congruence. lia.
Qed.

Lemma dict_keys_incr (k : string) (d : dict Z) :
  dict_keys (dict_incr k d) =
    if existsb (String.eqb k) (dict_keys d) then dict_keys d
    else dict_keys d ++ [k].
Proof. apply dict_keys_set_eq. Qed.

Lemma dict_total_set (k : string) (v : Z) (d : dict Z) :
  fold_right Z.add 0 (dict_values (dict_set k v d))
  = fold_right Z.add 0 (dict_values d) - count_of k d + v.
Proof.
  unfold count_of, dict_values.
  induction d as [|[k0 v0] rest IH]; cbn; [lia |].
  destruct (String.eqb k0 k); cbn; [lia |]. rewrite IH. lia.
Qed.

Lemma tally_snoc (keys : list string) (k : string) :
  tally (keys ++ [k]) = dict_incr k (tally keys).
Proof. unfold tally. now rewrite fold_left_app. Qed.

Lemma tally_keys (keys : list string) : dict_keys (tally keys) = dedup keys.
Proof.
  induction keys as [|k keys IH] using rev_ind; [reflexivity |].
  now rewrite tally_snoc, dict_keys_incr, IH, dedup_snoc, existsb_dedup.
Qed.

Lemma occurrences_snoc (k k' : string) (keys : list string) :
  occurrences k' (keys ++ [k])
  = occurrences k' keys + (if String.eqb k' k then 1 else 0).
Proof.
  unfold occurrences. rewrite filter_app, length_app; cbn.
  destruct (String.eqb k' k); cbn; lia.
Qed.

Lemma tally_count (keys : list string) (k : string) :
  count_of k (tally keys) = occurrences k keys.
Proof.
  induction keys as [|k0 keys IH] using rev_ind; [reflexivity |].
  now rewrite tally_snoc, count_of_incr, IH, occurrences_snoc.
Qed.

Lemma tally_total (keys : list string) :
  fold_right Z.add 0 (dict_values (tally keys)) = Z.of_nat (List.length keys).
Proof.
  induction keys as [|k keys IH] using rev_ind; [reflexivity |].
  rewrite tally_snoc. unfold dict_incr. rewrite dict_total_set, IH.
  unfold count_of. rewrite length_app; cbn. lia.
Qed.

(** A dictionary without repeated keys is determined by its keys and the
    count stored for each. *)
Lemma dict_of_keys (d : dict Z) :
  NoDup (dict_keys d) -> d = map (fun k => (k, count_of k d)) (dict_keys d).
Proof.
  unfold dict_keys, count_of.
  induction d as [|[k0 v0] rest IH]; cbn; intros Hnd; [reflexivity |].
  inversion Hnd as [| ? ? Hnotin Hrest]; subst.
  rewrite String.eqb_refl. f_equal.
  rewrite (IH Hrest) at 1. apply map_ext_in. intros k Hk.
  destruct (String.eqb_spec k0 k) as [-> | Hne]; [contradiction | reflexivity].
Qed.

Lemma tally_spec (keys : list string) :
  tally keys = map (fun k => (k, occurrences k keys)) (dedup keys).
Proof.
  rewrite (dict_of_keys (tally keys)) by (rewrite tally_keys; apply dedup_NoDup).
  rewrite tally_keys. apply map_ext. intros k. now rewrite tally_count.
Qed.

Lemma tally_map {A : Type} (key : A -> string) (data : list A) (d0 : dict Z) :
  fold_left (fun d x => dict_incr (key x) d) data d0
  = fold_left (fun d k => dict_incr k d) (map key data) d0.
Proof.
  revert d0. induction data as [|x rest IH]; intros d0; cbn; [reflexivity |].
  apply IH.
Qed.

(** The loops that skip [None] and the empty string count the values of
    [truthy_values]. *)
Lemma tally_truthy (attr : Datum -> option string) (data : list Datum) :
  forall d0,
    fold_left
      (fun d datum =>
         match attr datum with
         | Some s => if truthy (attr datum) then dict_incr s d else d
         | None => d
         end) data d0
    = fold_left (fun d k => dict_incr k d) (truthy_values attr data) d0.
Proof.
  induction data as [|x rest IH]; intros d0; cbn [fold_left]; [reflexivity |].
  unfold truthy_values. cbn [flat_map]. rewrite fold_left_app.
  fold (truthy_values attr rest). rewrite IH.
  destruct (attr x) as [s|]; [| reflexivity].
  now destruct (truthy (Some s)).
Qed.

Lemma truthy_values_In (attr : Datum -> option string) (data : list Datum)
    (s : string) :
  In s (truthy_values attr data) <->
  s <> EmptyString /\ exists d, In d data /\ attr d = Some s.
Proof.
  unfold truthy_values. rewrite in_flat_map. split.
  - intros (d & Hd & Hs). destruct (attr d) as [s'|] eqn:E; [| contradiction].
    cbn in Hs. destruct (String.eqb_spec s' EmptyString) as [-> | Hne];
      cbn in Hs; [contradiction |].
    destruct Hs as [<- | []]. split; [exact Hne | now exists d].
  - intros (Hne & d & Hd & E). exists d. split; [exact Hd |].
    rewrite E. cbn. apply String.eqb_neq in Hne. rewrite Hne. now left.
Qed.

Lemma truthy_values_length (attr : Datum -> option string) (data : list Datum) :
  List.length (truthy_values attr data)
  = List.length (filter (fun d => truthy (attr d)) data).
Proof.
  unfold truthy_values.
  induction data as [|d rest IH]; cbn [flat_map filter]; [reflexivity |].
  rewrite length_app, IH.
  destruct (attr d) as [s|]; [| reflexivity].
  now destruct (truthy (Some s)).
Qed.

(** X7: [relation_count] prints one line per relation type that occurs, in
    the order in which the types first occur in the corpus; the line is the
    type, a space, and the number of records of that type. *)
Theorem relation_count_lines (data : list Datum) :
  relation_count data
  = map (fun r => String.append r
                    (String.append " "
                       (str_of_int (occurrences r (map Relation data)))))
      (dedup (map Relation data)).
Proof.
  unfold relation_count, relation_count_dict. cbv zeta.
  rewrite tally_map. fold (tally (map Relation data)).
  now rewrite tally_spec, map_map.
Qed.

(** X8: the counts [relation_count] accumulates add up to the number of
    records: every record is counted once, under its own relation type. *)
Theorem relation_count_total (data : list Datum) :
  fold_right Z.add 0 (dict_values (relation_count_dict data))
  = Z.of_nat (List.length data) /\
  (forall r,
     count_of r (relation_count_dict data)
     = Z.of_nat (List.length (filter (fun d => String.eqb r (Relation d)) data))).
Proof.
  unfold relation_count_dict. rewrite tally_map.
  fold (tally (map Relation data)). split.
  - now rewrite tally_total, length_map.
  - intros r. rewrite tally_count. unfold occurrences. do 2 f_equal.
    induction data as [|d rest IH]; cbn; [reflexivity |].
    destruct (String.eqb r (Relation d)); cbn; now rewrite IH.
Qed.

Lemma count_semantic_classes_tally (data : list Datum) :
  count_semantic_classes data = tally (truthy_values ConnHeadSemClass1 data).
Proof. unfold count_semantic_classes. cbv zeta. apply tally_truthy. Qed.

(** X9: [count_semantic_classes] returns one entry per distinct non-empty
    [ConnHeadSemClass1], in order of first occurrence, with the number of
    records that carry it.  Records whose semantic class is [None] or the
    empty string are not counted, so the empty string is never a key. *)
Theorem count_semantic_classes_spec (data : list Datum) :
  let classes := truthy_values ConnHeadSemClass1 data in
  count_semantic_classes data
  = map (fun s => (s, occurrences s classes)) (dedup classes) /\
  (forall s,
     In s (dict_keys (count_semantic_classes data)) <->
     s <> EmptyString /\ exists d, In d data /\ ConnHeadSemClass1 d = Some s) /\
  fold_right Z.add 0 (dict_values (count_semantic_classes data))
  = Z.of_nat (List.length (filter (fun d => truthy (ConnHeadSemClass1 d)) data)).
Proof.
  cbv zeta. rewrite count_semantic_classes_tally.
  split; [apply tally_spec | split].
  - intros s. now rewrite tally_keys, dedup_In, truthy_values_In.
  - rewrite tally_total. f_equal. apply truthy_values_length.
Qed.

(** X10: [attribution_counts] returns one entry per distinct non-empty
    [Attribution_Source], in order of first occurrence, with the number of
    records that carry it; records without a source are skipped. *)
Theorem attribution_counts_spec
    (Attribution_Source : Datum -> option string) (data : list Datum) :
  let sources := truthy_values Attribution_Source data in
  attribution_counts Attribution_Source data
  = map (fun s => (s, occurrences s sources)) (dedup sources) /\
  (forall s,
     In s (dict_keys (attribution_counts Attribution_Source data)) <->
     s <> EmptyString /\ exists d, In d data /\ Attribution_Source d = Some s).
Proof.
  cbv zeta.
  assert (E : attribution_counts Attribution_Source data
              = tally (truthy_values Attribution_Source data)).
  { unfold attribution_counts. cbv zeta. apply tally_truthy. }
  rewrite E. split; [apply tally_spec |].
  intros s. now rewrite tally_keys, dedup_In, truthy_values_In.
Qed.

(** ** [sorted] *)

Section Sorting.

Context {A : Type}.
Variable lt : A -> A -> bool.

Lemma insert_sorted_perm (x : A) (l : list A) :
  Permutation (x :: l) (insert_sorted lt x l).
Proof.
  induction l as [|y rest IH]; cbn; [reflexivity |].
  destruct (lt x y); [reflexivity |].
  rewrite perm_swap. now constructor.
Qed.

Lemma fold_insert_perm (l : list A) :
  forall acc,
    Permutation (l ++ acc) (fold_left (fun acc x => insert_sorted lt x acc) l acc).
Proof.
  induction l as [|x rest IH]; intros acc; cbn; [reflexivity |].
  rewrite <- IH. rewrite <- insert_sorted_perm.
  now rewrite Permutation_middle.
Qed.

Lemma py_sorted_perm (l : list A) : Permutation l (py_sorted lt l).
Proof.
  unfold py_sorted. rewrite <- fold_insert_perm. now rewrite app_nil_r.
Qed.

(** Inserting into a list sorted for a transitive relation [R] keeps it
    sorted, when [lt x y] implies [R x y] and its failure implies
    [R y x]. *)
Lemma insert_sorted_StronglySorted (R : A -> A -> Prop) (x : A) (l : list A) :
  (forall a b c, R a b -> R b c -> R a c) ->
  (forall y, In y l -> lt x y = true -> R x y) ->
  (forall y, In y l -> lt x y = false -> R y x) ->
  StronglySorted R l -> StronglySorted R (insert_sorted lt x l).
Proof.
  intros Htrans Hlt Hge Hs.
  induction Hs as [|y rest Hrest IH Hall]; cbn.
  - constructor; constructor.
  - destruct (lt x y) eqn:E.
    + assert (Hxy : R x y) by (apply Hlt; [now left | exact E]).
      constructor; [now constructor |].
      constructor; [exact Hxy |].
      eapply Forall_impl; [| exact Hall]. intros z Hz. now apply (Htrans x y z).
    + assert (Hyx : R y x) by (apply Hge; [now left | exact E]).
      constructor.
      * apply IH; intros z Hz; [apply Hlt | apply Hge]; now right.
      * rewrite <- insert_sorted_perm. now constructor.
Qed.

End Sorting.

(** The sort by count, largest first, gives non-increasing counts. *)
Lemma py_sorted_count_desc (l : list (string * Z)) :
  StronglySorted (fun x y => snd y <= snd x) (py_sorted count_desc l).
Proof.
  unfold py_sorted.
  assert (H : forall acc,
    StronglySorted (fun x y => snd y <= snd x) acc ->
    StronglySorted (fun x y => snd y <= snd x)
      (fold_left (fun acc x => insert_sorted count_desc x acc) l acc)).
  { induction l as [|x rest IH]; intros acc Hacc; cbn; [exact Hacc |].
    apply IH. apply insert_sorted_StronglySorted; trivial.
    - intros a b c; cbn; lia.
    - intros y _ E. unfold count_desc in E. apply Z.ltb_lt in E. lia.
    - intros y _ E. unfold count_desc in E. apply Z.ltb_ge in E. lia. }
  apply H. constructor.
Qed.

(** Among the items with a given count, the sort keeps the original
    order. *)
Lemma insert_count_desc_stable (c : Z) (x : string * Z) (acc : list (string * Z)) :
  StronglySorted (fun x y => snd y <= snd x) acc ->
  filter (fun y => snd y =? c) (insert_sorted count_desc x acc)
  = filter (fun y => snd y =? c) acc ++ (if snd x =? c then [x] else []).
Proof.
  intros Hs. induction Hs as [|y rest Hrest IH Hall]; cbn; [reflexivity |].
  unfold count_desc at 1. destruct (Z.ltb_spec (snd y) (snd x)) as [Hlt | Hge].
  - cbn. destruct (Z.eqb_spec (snd x) c) as [Hx | Hx].
    + assert (Hnone : filter (fun y => snd y =? c) (y :: rest) = []).
      { cbn. destruct (Z.eqb_spec (snd y) c); [lia |].
        clear IH Hrest. induction rest as [|z rest IHr]; cbn; [reflexivity |].
        inversion Hall as [| ? ? Hz Hall']; subst.
        destruct (Z.eqb_spec (snd z) (snd x)); [lia | now apply IHr]. }
      cbn in Hnone. now rewrite Hnone.
    + now rewrite app_nil_r.
  - cbn. rewrite IH. now destruct (snd y =? c).
Qed.

Lemma py_sorted_count_desc_stable (c : Z) (l : list (string * Z)) :
  filter (fun y => snd y =? c) (py_sorted count_desc l)
  = filter (fun y => snd y =? c) l.
Proof.
  unfold py_sorted.
  assert (H : forall acc,
    StronglySorted (fun x y => snd y <= snd x) acc ->
    StronglySorted (fun x y => snd y <= snd x)
      (fold_left (fun acc x => insert_sorted count_desc x acc) l acc) /\
    filter (fun y => snd y =? c)
      (fold_left (fun acc x => insert_sorted count_desc x acc) l acc)
    = filter (fun y => snd y =? c) acc ++ filter (fun y => snd y =? c) l).
  { induction l as [|x rest IH]; intros acc Hacc; cbn [fold_left].
    - split; [exact Hacc | cbn; now rewrite app_nil_r].
    - assert (Hins : StronglySorted (fun x y => snd y <= snd x)
                       (insert_sorted count_desc x acc)).
      { apply insert_sorted_StronglySorted; trivial.
        - intros a b c0; cbn; lia.
        - intros y _ E. unfold count_desc in E. apply Z.ltb_lt in E. lia.
        - intros y _ E. unfold count_desc in E. apply Z.ltb_ge in E. lia. }
      destruct (IH _ Hins) as [Hs Hf]. split; [exact Hs |].
      rewrite Hf, insert_count_desc_stable by exact Hacc.
      rewrite <- app_assoc. f_equal. cbn. now destruct (snd x =? c). }
  now destruct (H [] (SSorted_nil _)) as [_ ->].
Qed.

(** ** The order on strings *)

Lemma ascii_compare_refl (a : ascii) : Ascii.compare a a = Eq.
Proof. unfold Ascii.compare. apply N.compare_refl. Qed.

Lemma ascii_compare_lt_trans (a b c : ascii) :
  Ascii.compare a b = Lt -> Ascii.compare b c = Lt -> Ascii.compare a c = Lt.
Proof.
  unfold Ascii.compare. rewrite !N.compare_lt_iff. apply N.lt_trans.
Qed.

Lemma string_compare_lt_trans (s1 : string) :
  forall s2 s3,
    String.compare s1 s2 = Lt -> String.compare s2 s3 = Lt ->
    String.compare s1 s3 = Lt.
Proof.
  induction s1 as [|a s1 IH]; intros [|b s2] [|c s3]; cbn; try congruence.
  destruct (Ascii.compare a b) eqn:Eab; try discriminate;
    destruct (Ascii.compare b c) eqn:Ebc; try discriminate; intros H12 H23.
  - apply Ascii.compare_eq_iff in Eab, Ebc. subst.
    rewrite ascii_compare_refl. now apply (IH s2).
  - apply Ascii.compare_eq_iff in Eab. subst. now rewrite Ebc.
  - apply Ascii.compare_eq_iff in Ebc. subst. now rewrite Eab.
  - now rewrite (ascii_compare_lt_trans a b c).
Qed.

Lemma string_ltb_trans (s1 s2 s3 : string) :
  String.ltb s1 s2 = true -> String.ltb s2 s3 = true -> String.ltb s1 s3 = true.
Proof.
  unfold String.ltb.
  destruct (String.compare s1 s2) eqn:E12; try discriminate.
  destruct (String.compare s2 s3) eqn:E23; try discriminate.
  now rewrite (string_compare_lt_trans s1 s2 s3).
Qed.

Lemma string_ltb_total (s1 s2 : string) :
  s1 <> s2 -> String.ltb s1 s2 = false -> String.ltb s2 s1 = true.
Proof.
  unfold String.ltb. intros Hne H.
  rewrite (String.compare_antisym s2 s1).
  destruct (String.compare s1 s2) eqn:E; cbn; try congruence.
  apply String.compare_eq_iff in E. congruence.
Qed.

(** Sorting items with distinct names puts the names in strictly
    ascending order. *)
Lemma py_sorted_item_lt (l : list (string * Z)) :
  NoDup (map fst l) ->
  StronglySorted (fun x y => String.ltb (fst x) (fst y) = true)
    (py_sorted item_lt l).
Proof.
  unfold py_sorted.
  assert (H : forall acc,
    NoDup (map fst (acc ++ l)) ->
    StronglySorted (fun x y => String.ltb (fst x) (fst y) = true) acc ->
    StronglySorted (fun x y => String.ltb (fst x) (fst y) = true)
      (fold_left (fun acc x => insert_sorted item_lt x acc) l acc)).
  { induction l as [|x rest IH]; intros acc Hnd Hacc; cbn; [exact Hacc |].
    assert (Hfresh : forall y, In y acc -> fst x <> fst y).
    { intros y Hy Heq. rewrite map_app in Hnd. cbn in Hnd.
      apply NoDup_remove_2 in Hnd. apply Hnd. apply in_or_app. left.
      rewrite Heq. now apply in_map. }
    apply IH.
    - eapply Permutation_NoDup; [| exact Hnd].
      apply Permutation_map.
      transitivity ((x :: acc) ++ rest);
        [symmetry; apply Permutation_middle |].
      apply Permutation_app_tail, insert_sorted_perm.
    - apply insert_sorted_StronglySorted; trivial.
      + intros a b c. apply string_ltb_trans.
      + intros y Hy E. unfold item_lt in E.
        apply Hfresh, String.eqb_neq in Hy. now rewrite Hy in E.
      + intros y Hy E. unfold item_lt in E. pose proof (Hfresh y Hy) as Hne.
        apply String.eqb_neq in Hne. rewrite Hne in E.
        apply string_ltb_total; [| exact E]. now apply String.eqb_neq. }
  intros Hnd. apply H; [exact Hnd | constructor].
Qed.

(** X11: [count_semantic_classes_to_csv] writes the header row and then one
    row per counted semantic class, the class name followed by its count;
    the rows are exactly the entries of [count_semantic_classes], and they
    come in strictly ascending order of the class names. *)
Theorem count_semantic_classes_to_csv_sorted (data : list Datum) :
  exists items,
    count_semantic_classes_to_csv data
    = [Str "ConnHeadSemClass1"; Str "Count"]
      :: map (fun kv => [Str (fst kv); Int (snd kv)]) items /\
    Permutation (count_semantic_classes data) items /\
    StronglySorted (fun x y => String.ltb (fst x) (fst y) = true) items.
Proof.
  exists (py_sorted item_lt (count_semantic_classes data)).
  split; [reflexivity | split; [apply py_sorted_perm |]].
  apply py_sorted_item_lt.
  change (NoDup (dict_keys (count_semantic_classes data))).
  rewrite count_semantic_classes_tally, tally_keys. apply dedup_NoDup.
Qed.

(** ** [connective_distribution] *)

Lemma nested_count_step (rel c r k : string) (d : dict (dict Z)) :
  nested_count rel c
    (dict_set r
       (dict_incr k (match dict_get r d with
                     | Some counts => counts
                     | None => []
                     end)) d)
  = nested_count rel c d
    + (if String.eqb rel r && String.eqb c k then 1 else 0).
Proof.
  unfold nested_count.
  destruct (String.eqb_spec rel r) as [-> | Hne]; cbn [andb].
  - rewrite dict_get_set_same.
    pose proof (count_of_incr k c) as Hincr. unfold count_of in Hincr.
    rewrite Hincr. now destruct (dict_get r d).
  - rewrite dict_get_set_other by congruence. lia.
Qed.

Section Distribution.

Variable conn_str : Datum -> bool -> option string.
Variable lower : string -> string.

Lemma connective_distribution_snoc (data : list Datum) (x : Datum) :
  connective_distribution conn_str lower (data ++ [x])
  = match conn_str x false with
    | Some s =>
        if truthy (Some s) then
          dict_set (Relation x)
            (dict_incr (lower s)
               (match dict_get (Relation x)
                        (connective_distribution conn_str lower data) with
                | Some counts => counts
                | None => []
                end))
            (connective_distribution conn_str lower data)
        else connective_distribution conn_str lower data
    | None => connective_distribution conn_str lower data
    end.
Proof.
  unfold connective_distribution. rewrite fold_left_app. cbn.
  now destruct (conn_str x false).
Qed.

End Distribution.

(** X12: in the result of [connective_distribution], the number stored for
    a connective under a relation type is the number of records of that
    type whose connective string is present, non-empty and equal to it
    after [lower()]; a relation type is a key exactly when one of its
    records has such a connective string. *)
Theorem connective_distribution_counts
    (conn_str : Datum -> bool -> option string) (lower : string -> string)
    (data : list Datum) (rel : string) :
  (forall c,
     nested_count rel c (connective_distribution conn_str lower data)
     = Z.of_nat
         (List.length
            (filter (fun d =>
                       String.eqb rel (Relation d) &&
                       match conn_str d false with
                       | Some s => truthy (Some s) && String.eqb c (lower s)
                       | None => false
                       end) data))) /\
  (In rel (dict_keys (connective_distribution conn_str lower data)) <->
   exists d,
     In d data /\ Relation d = rel /\ truthy (conn_str d false) = true).
Proof.
  induction data as [|x data [IHc IHk]] using rev_ind.
  - split; [reflexivity |]. cbn. split; [intros [] | intros (d & [] & _)].
  - rewrite connective_distribution_snoc. split.
    + intros c. rewrite filter_app, length_app, Nat2Z.inj_add, <- IHc. cbn.
      destruct (conn_str x false) as [s|]; cbn.
      * destruct (String.eqb s EmptyString); cbn.
        -- rewrite andb_false_r. cbn. lia.
        -- rewrite nested_count_step.
           now destruct (String.eqb rel (Relation x) && String.eqb c (lower s)).
      * rewrite andb_false_r. cbn. lia.
    + assert (Hold : (exists d, In d (data ++ [x]) /\ Relation d = rel /\
                                truthy (conn_str d false) = true) <->
                     In rel (dict_keys (connective_distribution conn_str lower data)) \/
                     (Relation x = rel /\ truthy (conn_str x false) = true)).
      { rewrite IHk. split.
        - intros (d & Hd & Hrel & Ht). apply in_app_or in Hd as [Hd | [<- | []]].
          + left. now exists d.
          + now right.
        - intros [(d & Hd & Hrel & Ht) | [Hrel Ht]].
          + exists d. split; [apply in_or_app; now left | now split].
          + exists x. split; [apply in_or_app; right; now left | now split]. }
      rewrite Hold.
      destruct (conn_str x false) as [s|]; cbn [truthy].
      * destruct (negb (String.eqb s EmptyString)) eqn:Et; cbn [truthy].
        -- rewrite dict_keys_set. split.
           ++ intros [-> | Hin]; [right; now split | now left].
           ++ intros [Hin | [<- _]]; [now right | now left].
        -- split; [now left | intros [Hin | [_ [=]]]; exact Hin].
      * split; [now left | intros [Hin | [_ [=]]]; exact Hin].
Qed.

(** ** [connective_distribution2wordle] *)

Lemma append_nil_r (s : string) : String.append s EmptyString = s.
Proof. induction s as [|a s IH]; cbn; [reflexivity | now rewrite IH]. Qed.

Lemma append_assoc (s1 s2 s3 : string) :
  String.append (String.append s1 s2) s3
  = String.append s1 (String.append s2 s3).
Proof. induction s1 as [|a s1 IH]; cbn; [reflexivity | now rewrite IH]. Qed.

Lemma str_join_app (l1 l2 : list string) :
  str_join (l1 ++ l2) = String.append (str_join l1) (str_join l2).
Proof.
  unfold str_join.
  induction l1 as [|s l1 IH]; cbn; [reflexivity |].
  now rewrite IH, append_assoc.
Qed.

Lemma fold_append {A : Type} (f : A -> string) (l : list A) :
  forall s,
    fold_left (fun s x => String.append s (f x)) l s
    = String.append s (str_join (map f l)).
Proof.
  induction l as [|x rest IH]; intros s; cbn [fold_left map];
    [cbn; now rewrite append_nil_r |].
  rewrite IH, append_assoc. reflexivity.
Qed.

Lemma list_ascii_append (s1 s2 : string) :
  list_ascii_of_string (String.append s1 s2)
  = list_ascii_of_string s1 ++ list_ascii_of_string s2.
Proof. induction s1 as [|a s1 IH]; cbn; [reflexivity | now rewrite IH]. Qed.

Lemma replace_char_absent (old new : ascii) (s : string) (c : ascii) :
  old <> new ->
  In c (list_ascii_of_string (replace_char old new s)) -> c <> old.
Proof.
  intros Hne. induction s as [|a s IH]; cbn; [intros [] |].
  intros [<- | Hin]; [| now apply IH].
  destruct (Ascii.eqb_spec a old); congruence.
Qed.

Lemma string_of_uint_digits (d : Decimal.uint) (c : ascii) :
  In c (list_ascii_of_string (NilEmpty.string_of_uint d)) -> c <> " "%char.
Proof.
  induction d as [|d IH|d IH|d IH|d IH|d IH|d IH|d IH|d IH|d IH|d IH]; cbn;
    try (intros [<- | Hin]; [discriminate | now apply IH]).
  intros [].
Qed.

Lemma str_of_int_no_space (n : Z) (c : ascii) :
  In c (list_ascii_of_string (str_of_int n)) -> c <> " "%char.
Proof.
  unfold str_of_int, NilZero.string_of_int, NilZero.string_of_uint.
  destruct (Z.to_int n) as [d | d].
  - destruct d; try apply string_of_uint_digits.
    cbn. intros [<- | []]. discriminate.
  - cbn. intros [<- | Hin]; [discriminate |].
    destruct d; try (revert Hin; apply string_of_uint_digits).
    cbn in Hin. destruct Hin as [<- | []]. discriminate.
Qed.

(** X13: [connective_distribution2wordle] writes one block per relation
    type, in the order of the dictionary, and nothing else: the result for
    the empty dictionary is the empty string, and the result for a
    dictionary whose items are those of two others, one after the other, is
    the two results joined. *)
Theorem connective_distribution2wordle_blocks (d1 d2 : dict (dict Z)) :
  connective_distribution2wordle d1 = str_join (map wordle_block d1) /\
  connective_distribution2wordle (d1 ++ d2)
  = String.append (connective_distribution2wordle d1)
      (connective_distribution2wordle d2).
Proof.
  assert (H : forall d,
    connective_distribution2wordle d = str_join (map wordle_block d)).
  { intros d. unfold connective_distribution2wordle. cbv zeta.
    transitivity
      (fold_left (fun s item => String.append s (wordle_block item)) d
         EmptyString);
      [| now rewrite fold_append].
    generalize EmptyString.
    induction d as [|item rest IH]; intros s; cbn [fold_left];
      [reflexivity |].
    rewrite IH. f_equal.
    rewrite fold_append. unfold wordle_block.
    now rewrite !append_assoc. }
  split; [apply H |].
  now rewrite !H, map_app, str_join_app.
Qed.

(** X14: within the block of a relation type, every connective of its
    dictionary has exactly one entry, the entries come with non-increasing
    counts, and connectives with equal counts keep the order they have in
    the dictionary. *)
Theorem wordle_block_order (item : string * dict Z) :
  exists entries,
    wordle_block item
    = String.append wordle_rule
        (String.append (String.append (fst item) newline)
           (String.append wordle_rule (str_join (map wordle_entry entries)))) /\
    Permutation (snd item) entries /\
    StronglySorted (fun x y => snd y <= snd x) entries /\
    (forall c,
       filter (fun kv => snd kv =? c) entries
       = filter (fun kv => snd kv =? c) (snd item)).
Proof.
  exists (py_sorted count_desc (snd item)).
  split; [reflexivity |].
  split; [apply py_sorted_perm |].
  split; [apply py_sorted_count_desc |].
  intros c. apply py_sorted_count_desc_stable.
Qed.

(** X15: an entry line of the Wordle text contains no space: the spaces of
    the connective are replaced by underscores and the count is written in
    decimal digits. *)
Theorem wordle_entry_no_space (kv : string * Z) (c : ascii) :
  In c (list_ascii_of_string (wordle_entry kv)) -> c <> " "%char.
Proof.
  unfold wordle_entry, newline. rewrite !list_ascii_append, !in_app_iff.
  intros [H | [H | [H | H]]].
  - revert H. apply replace_char_absent. discriminate.
  - cbn in H. destruct H as [<- | []]. discriminate.
  - revert H. apply str_of_int_no_space.
  - cbn in H. destruct H as [<- | []]. discriminate.
Qed.

Lemma wordle_entry_no_space_witness :
  In "_"%char (list_ascii_of_string (wordle_entry ("as if"%string, 12))) /\
  "_"%char <> " "%char.
Proof.
  assert (Hin : In "_"%char
                  (list_ascii_of_string (wordle_entry ("as if"%string, 12))))
    by (cbn; right; right; left; reflexivity).
  split; [exact Hin |].
  exact (wordle_entry_no_space ("as if"%string, 12) "_"%char Hin).
Defined.

(** ** The filter chain as a conjunction *)


